(** * port/stack_trace.cc: capture, symbolize and print native call stacks

    A shallow embedding of the non-stub branch of [port/stack_trace.cc]
    (built with ROCKSDB_BACKTRACE on OS_LINUX), followed by the properties
    of the fault handler, the capture operations and the symbolizer.

    The operating system is an explicit record of answers ([os]); the
    program is written in a small monad that threads the process-wide
    statics, accumulates the calls the program makes as a chronological
    event list, and distinguishes three ways a call can end: it returns,
    the process image is replaced by [execlp], or the program leaves
    defined behaviour (an out-of-bounds access, a call outside the
    contract of a library function). *)

From Stdlib Require Import ZArith String Ascii List Bool Lia.
From Stdlib Require Import HexString DecimalString.
Import ListNotations.

Open Scope string_scope.
Open Scope Z_scope.

(** ** C strings and buffers *)

Module CString.

Definition NUL : ascii := "000"%char.
Definition LF : ascii := "010"%char.

(** The C string held by a buffer: its bytes up to the first NUL. *)
Fixpoint c_str (buffer : string) : string :=
  match buffer with
  | EmptyString => EmptyString
  | String c rest => if Ascii.eqb c NUL then EmptyString else String c (c_str rest)
  end.

Definition strlen (buffer : string) : Z := Z.of_nat (String.length (c_str buffer)).

(** [buffer[idx] = c] for an index inside the buffer. *)
Fixpoint store (buffer : string) (idx : nat) (c : ascii) : string :=
  match buffer, idx with
  | EmptyString, _ => EmptyString
  | String _ rest, O => String c rest
  | String b rest, S idx' => String b (store rest idx' c)
  end.

(** [snprintf(buf, size, ...)] keeps at most [size - 1] bytes of the
    formatted text. *)
Definition snprintf (size : nat) (formatted : string) : string :=
  substring 0 (size - 1) formatted.

(** [%d] and [%lld]. *)
Definition fmt_d (z : Z) : string := NilZero.string_of_int (Z.to_int z).

(** [%p] as glibc prints it. *)
Definition fmt_p (p : Z) : string := if p =? 0 then "(nil)" else HexString.of_Z p.

(** [%-2d]: left-justified in a field of width two. *)
Definition fmt_d_left2 (z : Z) : string :=
  let d := fmt_d z in
  d ++ (match String.length d with O => "  " | S O => " " | _ => "" end)%nat.

(** One successful [fgets(line, size, f)] on a stream that still has
    [n = size - 1] bytes of room: bytes are taken up to and including the
    first newline. The pair is what was stored and what is left to read. *)
Fixpoint fgets_chunk (n : nat) (stream : string) : string * string :=
  match n, stream with
  | O, _ => (EmptyString, stream)
  | _, EmptyString => (EmptyString, EmptyString)
  | S n', String c rest =>
      if Ascii.eqb c LF then (String c EmptyString, rest)
      else let (chunk, rest') := fgets_chunk n' rest in (String c chunk, rest')
  end.

(** [fgets] returns NULL at end of file when no byte was read. The
    buffer afterwards holds the chunk followed by the terminator. *)
Definition fgets (size : nat) (stream : string) : option (string * string) :=
  match stream with
  | EmptyString => None
  | _ => let (chunk, rest) := fgets_chunk (size - 1) stream in
         Some (chunk ++ String NUL EmptyString, rest)
  end.

(** [size_t] arithmetic on an LP64 target. *)
Definition SIZE_MOD : Z := 2 ^ 64.
Definition PTRDIFF_MAX : Z := 2 ^ 63 - 1.
Definition size_t (z : Z) : Z := z mod SIZE_MOD.
Definition sizeof_ptr : Z := 8.

Definition INT_MIN : Z := - 2 ^ 31.
Definition INT_MAX : Z := 2 ^ 31 - 1.
Definition in_int (z : Z) : bool := (INT_MIN <=? z) && (z <=? INT_MAX).

End CString.
Import CString.

(** ** <sys/wait.h> and <signal.h> as glibc defines them on Linux *)

Definition WIFEXITED (wstatus : Z) : bool := Z.land wstatus 127 =? 0.
Definition WEXITSTATUS (wstatus : Z) : Z := Z.shiftr (Z.land wstatus 65280) 8.
Definition EXIT_SUCCESS : Z := 0.

Definition SIGILL : Z := 4.
Definition SIGABRT : Z := 6.
Definition SIGBUS : Z := 7.
Definition SIGSEGV : Z := 11.

(** What a signal is bound to. *)
Inductive sighandler : Type :=
| SIG_DFL
| SIG_IGN
| To_StackTraceHandler.

(** ** Observable behaviour *)

(** Text written to the standard error stream, one constructor per
    [fprintf(stderr, ...)] call site. *)
Inductive text : Type :=
| Symbol (symbol : string)                    (* "%s "   in PrintStackTraceLine *)
| ToolLine (line : string)                    (* "%s\t"  in PrintStackTraceLine *)
| RawAddress (frame : Z)                      (* " %p"   in PrintStackTraceLine *)
| EndOfLine                                   (* "\n"    in PrintStackTraceLine *)
| FrameIndex (i : Z)                          (* "#%-2d  " in PrintStack *)
| InvokingDebug (debug_env : string)
| InvokingStackTrace
| GdbFailed
| ReceivedSignal (sig : Z) (description : string)
| TsanNote.

Inductive event : Type :=
| Stderr (t : text)
| Readlink (path : string)
| Popen (cmd : string)
| Pclose
| Backtrace (size : Z)
| BacktraceSymbols (size : Z)
| Prctl_SET_PTRACER_ANY
| Fork
| Execlp (argv : list string)
| Dup2 (oldfd newfd : Z)
| Close (fd : Z)
| Waitpid (pid : Z)
| Malloc (size : Z)
| Free_symbols
| Free_callstack
| Signal (sig : Z) (h : sighandler)
| Raise (sig : Z).

Definition EOL : string := String LF EmptyString.
Definition QUOTE : string := String "034"%char EmptyString.

Definition render (t : text) : string :=
  match t with
  | Symbol symbol => symbol ++ " "
  | ToolLine line => line ++ String "009"%char EmptyString
  | RawAddress frame => " " ++ fmt_p frame
  | EndOfLine => EOL
  | FrameIndex i => "#" ++ fmt_d_left2 i ++ "  "
  | InvokingDebug debug_env =>
      "Invoking GDB for debugging (ROCKSDB_DEBUG=" ++ debug_env ++ ")..." ++ EOL
  | InvokingStackTrace => "Invoking GDB for stack trace..." ++ EOL
  | GdbFailed => "GDB failed; falling back on backtrace+addr2line..." ++ EOL
  | ReceivedSignal sig description =>
      "Received signal " ++ fmt_d sig ++ " (" ++ description ++ ")" ++ EOL
  | TsanNote =>
      "==> NOTE: any above warnings about " ++ QUOTE ++ "signal-unsafe call" ++ QUOTE ++ " are" ++ EOL ++
      "==> ignorable, as they are expected when generating a stack" ++ EOL ++
      "==> trace because of a signal under TSAN. Consider why the" ++ EOL ++
      "==> signal was generated to begin with, and the stack trace" ++ EOL ++
      "==> in the TSAN warning can be useful for that. (The stack" ++ EOL ++
      "==> trace printed by the signal handler is likely obscured" ++ EOL ++
      "==> by TSAN output.)" ++ EOL
  end.

(** Everything the program wrote to the standard error stream. *)
Fixpoint stderr_text (out : list event) : string :=
  match out with
  | [] => EmptyString
  | Stderr t :: rest => render t ++ stderr_text rest
  | _ :: rest => stderr_text rest
  end.

(** ** The operating system and the build *)

Record os : Type := {
  os_getpid : Z;
  os_gettid : Z;
  os_getenv : string -> option string;
  (** answer of the [n]-th [readlink] the process issues ([None] is -1) *)
  os_readlink : nat -> string -> option string;
  (** where [backtrace] returns to inside [PrintStack(int)] and inside
      [SaveStack]: entry 0 of what each of them captures *)
  os_pc_PrintStack : Z;
  os_pc_SaveStack : Z;
  (** where the current call of [PrintStack(int)], of [SaveStack],
      returns to in its caller: entry 1 of what each of them captures *)
  os_ra_PrintStack : Z;
  os_ra_SaveStack : Z;
  (** the return addresses above the calling function, most recent call
      first: entries 2 and up of either capture *)
  os_call_stack : list Z;
  (** [backtrace_symbols]: a symbol string per address, or NULL *)
  os_backtrace_symbols : option (Z -> string);
  (** [popen(cmd, "r")]: NULL, or every byte the command writes *)
  os_popen : string -> option string;
  (** what [fork] returns in the process being modelled *)
  os_fork : Z;
  os_execlp_succeeds : bool;
  (** the status [waitpid] stores *)
  os_wstatus : Z;
  os_malloc_succeeds : Z -> bool;
  os_signal_succeeds : Z -> bool;
  os_strsignal : Z -> string
}.

Record build : Type := {
  ROCKSDB_DLL : bool;
  PR_SET_PTRACER_ANY : bool;
  SANITIZE_THREAD : bool
}.

(** ** Process-wide statics *)

Record state : Type := {
  (** [static const char* executable] of [PrintStackTraceLine]; [None]
      until the first call initialises it. *)
  executable : option (option string);
  (** how many [readlink] queries the process has issued *)
  readlinks : nat;
  disposition : Z -> sighandler;
  (** [static int pid] of [PrintStackTraceLine] under OS_MACOSX; [None]
      until the first call initialises it. *)
  macosx_pid : option Z
}.

Definition set_executable (v : option string) (s : state) : state :=
  {| executable := Some v; readlinks := readlinks s; disposition := disposition s;
     macosx_pid := macosx_pid s |}.

Definition count_readlink (s : state) : state :=
  {| executable := executable s; readlinks := S (readlinks s); disposition := disposition s;
     macosx_pid := macosx_pid s |}.

Definition set_disposition (sig : Z) (h : sighandler) (s : state) : state :=
  {| executable := executable s; readlinks := readlinks s;
     disposition := fun sig' => if sig' =? sig then h else disposition s sig';
     macosx_pid := macosx_pid s |}.

Definition set_macosx_pid (pid : Z) (s : state) : state :=
  {| executable := executable s; readlinks := readlinks s; disposition := disposition s;
     macosx_pid := Some pid |}.

(** Which function called [backtrace]. *)
Inductive capturer : Type :=
| By_PrintStack
| By_SaveStack.

(** ** The monad *)

Inductive outcome (A : Type) : Type :=
| Ret (a : A) (s : state) (out : list event)
| Replaced (out : list event)      (* [execlp] succeeded *)
| Undefined (out : list event).    (* undefined behaviour was reached *)

Arguments Ret {A} a s out.
Arguments Replaced {A} out.
Arguments Undefined {A} out.

Definition M (A : Type) : Type := state -> outcome A.

Definition ret {A} (a : A) : M A := fun s => Ret a s [].

Definition after {A} (out : list event) (o : outcome A) : outcome A :=
  match o with
  | Ret a s out' => Ret a s (out ++ out')
  | Replaced out' => Replaced (out ++ out')
  | Undefined out' => Undefined (out ++ out')
  end.

Definition bind {A B} (m : M A) (f : A -> M B) : M B :=
  fun s => match m s with
           | Ret a s' out => after out (f a s')
           | Replaced out => Replaced out
           | Undefined out => Undefined out
           end.

Declare Scope prog_scope.
Delimit Scope prog_scope with prog.
Notation "x <- m ;; k" := (bind m (fun x => k))
  (at level 61, m at next level, right associativity) : prog_scope.
Notation "m ;; k" := (bind m (fun _ => k))
  (at level 61, right associativity) : prog_scope.

Definition emit (e : event) : M unit := fun s => Ret tt s [e].
Definition fprintf_stderr (t : text) : M unit := emit (Stderr t).
Definition undefined {A} : M A := fun _ => Undefined [].
Definition get {A} (f : state -> A) : M A := fun s => Ret (f s) s [].
Definition modify (f : state -> state) : M unit := fun s => Ret tt (f s) [].

Definition events {A} (o : outcome A) : list event :=
  match o with
  | Ret _ _ out => out
  | Replaced out => out
  | Undefined out => out
  end.

Definition returns {A} (o : outcome A) : bool :=
  match o with Ret _ _ _ => true | _ => false end.

(** ** The program *)

Section Program.

Variable W : os.
Variable cfg : build.

Local Open Scope prog_scope.

Definition kLineMax : Z := 256.
Definition kMaxFrames : Z := 100.

(** [GetExecutableName] (the branch without OS_FREEBSD): the target of
    /proc/<pid>/exe, cut to the 1023 bytes the static buffer can take and
    terminated, or the null pointer when [readlink] answers -1. *)
Definition GetExecutableName : M (option string) :=
  let link := snprintf 1024 ("/proc/" ++ fmt_d (os_getpid W) ++ "/exe") in
  n <- get readlinks ;;
  emit (Readlink link) ;;
  modify count_readlink ;;
  match os_readlink W n link with
  | None => ret None
  | Some target => ret (Some (c_str (substring 0 1023 target)))
  end.

(** [static const char* executable = GetExecutableName();] the
    initialiser of a function-local static runs on the first pass only. *)
Definition static_executable : M (option string) :=
  cached <- get executable ;;
  match cached with
  | Some v => ret v
  | None =>
      v <- GetExecutableName ;;
      modify (set_executable v) ;;
      ret v
  end.

(** The index [strlen(line) - 1], computed in [size_t]. *)
Definition newline_index (line : string) : Z := size_t (strlen line - 1).

(** [while (fgets(line, sizeof(line), f)) { line[strlen(line) - 1] = 0;
    fprintf(stderr, "%s\t", line); }]. Every pass consumes at least one
    byte of the stream, so a fuel above its length is never used up. *)
Fixpoint echo_lines (fuel : nat) (stream : string) : M unit :=
  match fuel with
  | O => ret tt
  | S fuel' =>
      match fgets (Z.to_nat kLineMax) stream with
      | None => ret tt
      | Some (line, rest) =>
          let idx := newline_index line in
          if (0 <=? idx) && (idx <? kLineMax) then
            fprintf_stderr (ToolLine (c_str (store line (Z.to_nat idx) NUL))) ;;
            echo_lines fuel' rest
          else undefined
      end
  end.

Definition addr2line_cmd (frame : Z) (exe : string) : string :=
  snprintf (Z.to_nat kLineMax)
    ("addr2line " ++ fmt_p frame ++ " -e " ++ exe ++ " -f -C 2>&1").

Definition PrintStackTraceLine (symbol : option string) (frame : Z) : M unit :=
  exe <- static_executable ;;
  match symbol with
  | Some sym => fprintf_stderr (Symbol sym)
  | None => ret tt
  end ;;
  match exe with
  | Some path =>
      (* out source to addr2line, for the address translation *)
      let cmd := addr2line_cmd frame path in
      emit (Popen cmd) ;;
      match os_popen W cmd with
      | Some stream => echo_lines (S (String.length stream)) stream ;; emit Pclose
      | None => ret tt
      end
  | None => fprintf_stderr (RawAddress frame)
  end ;;
  fprintf_stderr EndOfLine.

(** A [void**]: the array it points into (the part that holds captured
    addresses) and the offset from the array's start. *)
Record frames_ptr : Type := { base : list Z; offset : Z }.

(** [frames[i]]; [None] outside the captured part of the array. *)
Definition frame_at (frames : frames_ptr) (i : Z) : option Z :=
  let j := offset frames + i in
  if 0 <=? j then nth_error (base frames) (Z.to_nat j) else None.

(** The body of [for (int i = 0; i < num_frames; ++i)], with [n] passes
    left and [i] the loop counter. *)
Fixpoint PrintStack_loop (symbols : option (Z -> string)) (frames : frames_ptr)
    (n : nat) (i : Z) : M unit :=
  match n with
  | O => ret tt
  | S n' =>
      fprintf_stderr (FrameIndex i) ;;
      match frame_at frames i with
      | None => undefined
      | Some frame =>
          PrintStackTraceLine (option_map (fun symbol_of => symbol_of frame) symbols) frame ;;
          PrintStack_loop symbols frames n' (i + 1)
      end
  end.

(** [void PrintStack(void* frames[], int num_frames)] *)
Definition PrintStack_frames (frames : frames_ptr) (num_frames : Z) : M unit :=
  (* backtrace_symbols gets the count as it is, also a negative one: glibc
     comes back from a count of -1, and with a smaller count the process
     aborts inside the call *)
  emit (BacktraceSymbols num_frames) ;;
  if num_frames <? -1 then undefined
  else
    PrintStack_loop (os_backtrace_symbols W) frames (Z.to_nat num_frames) 0 ;;
    emit Free_symbols.

(** The two entries [backtrace] stores first: its own return address in
    the function that called it, and that function's return address. *)
Definition own_frames (who : capturer) : list Z :=
  match who with
  | By_PrintStack => [os_pc_PrintStack W; os_ra_PrintStack W]
  | By_SaveStack => [os_pc_SaveStack W; os_ra_SaveStack W]
  end.

(** [backtrace(frames, size)] called by [who]: the addresses stored,
    most recent call first; the return value is their number. *)
Definition backtrace (who : capturer) (size : Z) : list Z :=
  firstn (Z.to_nat size) (own_frames who ++ os_call_stack W).

(** [(void)prctl(PR_SET_PTRACER, PR_SET_PTRACER_ANY, 0, 0, 0)] under
    [#ifdef PR_SET_PTRACER_ANY]. *)
Definition relax_ptrace : M unit :=
  if PR_SET_PTRACER_ANY cfg then emit Prctl_SET_PTRACER_ANY else ret tt.

(** [execlp]: returns only when it fails. *)
Definition execlp (argv : list string) : M unit :=
  fun s => if os_execlp_succeeds W then Replaced [Execlp argv] else Ret tt s [Execlp argv].

Definition bt_in_gdb : string :=
  "frame apply level 4 5 6 7 8 9 10 11 12 13 14 15 16 17 18 19 20 " ++
  "21 22 23 24 25 26 27 28 29 30 31 32 33 34 35 36 37 38 39 40 41 " ++
  "42 43 44 -q frame".

(** The transient capture handed to the printing loop: the pointer
    [&frames[first_frames_to_skip]] and the count
    [num_frames - first_frames_to_skip]. *)
Definition transient_capture (first_frames_to_skip : Z) : frames_ptr * Z :=
  let frames := backtrace By_PrintStack kMaxFrames in
  let num_frames := Z.of_nat (length frames) in
  ({| base := frames; offset := first_frames_to_skip |}, num_frames - first_frames_to_skip).

(** The last four lines of [PrintStack(int)]: capture with the built-in
    unwinder and print. A pointer outside the array or one past its end
    cannot be formed. *)
Definition unwind_and_print (first_frames_to_skip : Z) : M unit :=
  emit (Backtrace kMaxFrames) ;;
  if (0 <=? first_frames_to_skip) && (first_frames_to_skip <=? kMaxFrames) then
    let (frames, n) := transient_capture first_frames_to_skip in
    PrintStack_frames frames n
  else undefined.

(** [bool debug = debug_env != nullptr && strlen(debug_env) > 0;] *)
Definition debug_requested (debug_env : option string) : bool :=
  match debug_env with
  | Some v => 0 <? strlen v
  | None => false
  end.

(** [void PrintStack(int first_frames_to_skip)] *)
Definition PrintStack (first_frames_to_skip : Z) : M unit :=
  let linux_dll := ROCKSDB_DLL cfg in
  let debug_env := os_getenv W "ROCKSDB_DEBUG" in
  let debug := debug_requested debug_env in
  if linux_dll || debug then
    relax_ptrace ;;
    let attach_id :=
      match os_getenv W "ROCKSDB_DEBUG_USE_PID" with
      | None => os_gettid W
      | Some _ => os_getpid W
      end in
    let attach_id_str := snprintf 20 (fmt_d attach_id) in
    emit Fork ;;
    let child_pid := os_fork W in
    if child_pid =? 0 then
      (* child process *)
      if debug then
        fprintf_stderr (InvokingDebug (c_str (match debug_env with Some v => v | None => "" end))) ;;
        execlp ["gdb"; "-p"; attach_id_str] ;;
        ret tt
      else
        fprintf_stderr InvokingStackTrace ;;
        emit (Dup2 2 1) ;;
        emit (Close 0) ;;
        execlp ["gdb"; "-n"; "-batch"; "-p"; attach_id_str; "-ex"; bt_in_gdb] ;;
        ret tt
    else
      (* parent process; wait for child *)
      emit (Waitpid child_pid) ;;
      if WIFEXITED (os_wstatus W) && (WEXITSTATUS (os_wstatus W) =? EXIT_SUCCESS) then
        ret tt
      else
        fprintf_stderr GdbFailed ;;
        unwind_and_print first_frames_to_skip
  else
    unwind_and_print first_frames_to_skip.

(** The addresses [frames[0 .. n-1]], if all of them are captured. *)
Fixpoint frames_from (frames : frames_ptr) (n : nat) (i : Z) : option (list Z) :=
  match n with
  | O => Some []
  | S n' =>
      match frame_at frames i, frames_from frames n' (i + 1) with
      | Some a, Some l => Some (a :: l)
      | _, _ => None
      end
  end.

(** [void* SaveStack(int* num_frames, int first_frames_to_skip)]. The
    value stored through [num_frames] is returned next to the pointer. *)
Definition SaveStack_num_frames (first_frames_to_skip : Z) : Z :=
  let count := Z.of_nat (length (backtrace By_SaveStack kMaxFrames)) in
  count - first_frames_to_skip.

Definition SaveStack (first_frames_to_skip : Z) : M (frames_ptr * Z) :=
  emit (Backtrace kMaxFrames) ;;
  let frames := backtrace By_SaveStack kMaxFrames in
  let num_frames := SaveStack_num_frames first_frames_to_skip in
  if negb (in_int num_frames) then undefined
  else
    let size := size_t (sizeof_ptr * size_t num_frames) in
    emit (Malloc size) ;;
    if size =? 0 then ret ({| base := []; offset := 0 |}, num_frames)
    else if (size <=? PTRDIFF_MAX) && os_malloc_succeeds W size then
      (* memcpy(callstack, &frames[first_frames_to_skip], size) *)
      match frames_from {| base := frames; offset := first_frames_to_skip |}
                        (Z.to_nat (size / sizeof_ptr)) 0 with
      | Some copied => ret ({| base := copied; offset := 0 |}, num_frames)
      | None => undefined
      end
    else undefined.

(** [void PrintAndFreeStack(void* callstack, int num_frames)] *)
Definition PrintAndFreeStack (callstack : frames_ptr) (num_frames : Z) : M unit :=
  PrintStack_frames callstack num_frames ;;
  emit Free_callstack.

(** [signal(sig, handler)]: the disposition changes when the call
    succeeds; the return value is not looked at by any caller. *)
Definition signal (sig : Z) (h : sighandler) : M unit :=
  emit (Signal sig h) ;;
  if os_signal_succeeds W sig then modify (set_disposition sig h) else ret tt.

Definition raise (sig : Z) : M unit := emit (Raise sig).

(** [static void StackTraceHandler(int sig)] *)
Definition StackTraceHandler (sig : Z) : M unit :=
  (* reset to default handler *)
  signal sig SIG_DFL ;;
  fprintf_stderr (ReceivedSignal sig (os_strsignal W sig)) ;;
  (* skip the top three signal handler related frames *)
  PrintStack 3 ;;
  (if SANITIZE_THREAD cfg then fprintf_stderr TsanNote else ret tt) ;;
  (* re-signal to default handler *)
  raise sig.

(** [void InstallStackTraceHandler()] *)
Definition InstallStackTraceHandler : M unit :=
  signal SIGILL To_StackTraceHandler ;;
  signal SIGSEGV To_StackTraceHandler ;;
  signal SIGBUS To_StackTraceHandler ;;
  signal SIGABRT To_StackTraceHandler ;;
  relax_ptrace.

End Program.

(** Three properties of computations that go through [bind]. *)

Definition stateless {A} (m : M A) : Prop :=
  forall s a s' out, m s = Ret a s' out -> s' = s.

Definition total {A} (m : M A) : Prop :=
  forall s, returns (m s) = true.

Definition emits {A} (P : event -> Prop) (m : M A) : Prop :=
  forall s, Forall P (events (m s)).

(** ** What is read off an event list *)

(** The frame numbers written by [PrintStack], in order. *)
Definition frame_indices (out : list event) : list Z :=
  flat_map (fun e => match e with Stderr (FrameIndex i) => [i] | _ => [] end) out.

(** The raw addresses written by the symbolizer, in order. *)
Definition raw_addresses (out : list event) : list Z :=
  flat_map (fun e => match e with Stderr (RawAddress a) => [a] | _ => [] end) out.

(** The queries for the executable's path. *)
Definition readlink_events (out : list event) : list event :=
  filter (fun e => match e with Readlink _ => true | _ => false end) out.

(** The line ends written, one per symbolized frame. *)
Definition line_ends (out : list event) : nat :=
  length (filter (fun e => match e with Stderr EndOfLine => true | _ => false end) out).

(** The numbers [i, i+1, ..., i+n-1]. *)
Fixpoint iota (i : Z) (n : nat) : list Z :=
  match n with
  | O => []
  | S n' => i :: iota (i + 1) n'
  end.

(** A stream without NUL bytes. *)
Fixpoint no_nul (s : string) : bool :=
  match s with
  | EmptyString => true
  | String c rest => negb (Ascii.eqb c NUL) && no_nul rest
  end.

(** The commands the symbolizer launches write text. *)
Definition text_tool (W : os) : Prop :=
  forall cmd stream, os_popen W cmd = Some stream -> no_nul stream = true.

(** The buffers that the successive [fgets] calls of the symbolizer's
    read loop hand to the loop body. *)
Fixpoint lines_read (fuel : nat) (stream : string) : list string :=
  match fuel with
  | O => []
  | S fuel' =>
      match fgets (Z.to_nat kLineMax) stream with
      | None => []
      | Some (line, rest) => line :: lines_read fuel' rest
      end
  end.

(** The path the first symbolization stores, when the process has
    issued [n] queries before. *)
Definition resolved_path (W : os) (n : nat) : option string :=
  match os_readlink W n (snprintf 1024 ("/proc/" ++ fmt_d (os_getpid W) ++ "/exe")) with
  | None => None
  | Some target => Some (c_str (substring 0 1023 target))
  end.

(** [PrintStackTraceLine] once the static is read. *)
Definition line_body (W : os) (exe : option string) (symbol : option string) (frame : Z)
  : M unit :=
  (match symbol with
   | Some sym => fprintf_stderr (Symbol sym)
   | None => ret tt
   end ;;
   match exe with
   | Some path =>
       let cmd := addr2line_cmd frame path in
       emit (Popen cmd) ;;
       match os_popen W cmd with
       | Some stream => echo_lines (S (String.length stream)) stream ;; emit Pclose
       | None => ret tt
       end
   | None => fprintf_stderr (RawAddress frame)
   end ;;
   fprintf_stderr EndOfLine)%prog.

(** A run of symbolization calls, one after the other. *)
Fixpoint symbolize_all (W : os) (calls : list (option string * Z)) : M unit :=
  match calls with
  | [] => ret tt
  | (symbol, frame) :: later =>
      (PrintStackTraceLine W symbol frame ;; symbolize_all W later)%prog
  end.

(** The events of [relax_ptrace]. *)
Definition relax_events (cfg : build) : list event :=
  if PR_SET_PTRACER_ANY cfg then [Prctl_SET_PTRACER_ANY] else [].

(** The child's exit was reported as a success. *)
Definition child_succeeded (W : os) : bool :=
  WIFEXITED (os_wstatus W) && (WEXITSTATUS (os_wstatus W) =? EXIT_SUCCESS).

(** [PrintStack(int)] goes through the debugger. *)
Definition debugger_engaged (W : os) (cfg : build) : bool :=
  ROCKSDB_DLL cfg || debug_requested (os_getenv W "ROCKSDB_DEBUG").

(** What the forked child does before it returns or is replaced. *)
Definition child_events (W : os) : list event :=
  let debug_env := os_getenv W "ROCKSDB_DEBUG" in
  let attach_id :=
    match os_getenv W "ROCKSDB_DEBUG_USE_PID" with
    | None => os_gettid W
    | Some _ => os_getpid W
    end in
  let attach_id_str := snprintf 20 (fmt_d attach_id) in
  if debug_requested debug_env then
    [Stderr (InvokingDebug (c_str (match debug_env with Some v => v | None => "" end)));
     Execlp ["gdb"; "-p"; attach_id_str]]
  else
    [Stderr InvokingStackTrace; Dup2 2 1; Close 0;
     Execlp ["gdb"; "-n"; "-batch"; "-p"; attach_id_str; "-ex"; bt_in_gdb]].

(** [SaveStack] followed at once by [PrintAndFreeStack]. *)
Definition save_then_print (W : os) (first_frames_to_skip : Z) : M unit :=
  bind (SaveStack W first_frames_to_skip)
       (fun saved => PrintAndFreeStack W (fst saved) (snd saved)).

(** What the frame printer writes and launches. *)
Definition frame_output (out : list event) : list event :=
  filter (fun e => match e with
                   | Stderr (FrameIndex _) | Stderr (Symbol _) | Stderr (ToolLine _)
                   | Stderr (RawAddress _) | Stderr EndOfLine | Popen _ => true
                   | _ => false
                   end) out.

Definition initial_state : state :=
  {| executable := None; readlinks := 0; disposition := fun _ => SIG_DFL;
     macosx_pid := None |}.

(** Events that the symbolization of one frame can produce once the
    executable's path is known. *)
Definition line_event (e : event) : Prop :=
  match e with
  | Stderr (Symbol _) | Stderr (ToolLine _) | Stderr (RawAddress _) | Stderr EndOfLine
  | Popen _ | Pclose => True
  | _ => False
  end.

Definition tool_line (e : event) : Prop :=
  match e with
  | Stderr (ToolLine _) => True
  | _ => False
  end.

(** The value, the statics and the events that reading the static
    [executable] leaves behind. *)
Definition static_value (W : os) (s : state) : option string :=
  match executable s with
  | Some v => v
  | None => resolved_path W (readlinks s)
  end.

Definition static_state (W : os) (s : state) : state :=
  match executable s with
  | Some _ => s
  | None => set_executable (resolved_path W (readlinks s)) (count_readlink s)
  end.

Definition static_events (W : os) (s : state) : list event :=
  match executable s with
  | Some _ => []
  | None => [Readlink (snprintf 1024 ("/proc/" ++ fmt_d (os_getpid W) ++ "/exe")%string)]
  end.

(** What the handler writes between the stack and the re-raise. *)
Definition tsan_events (cfg : build) : list event :=
  if SANITIZE_THREAD cfg then [Stderr TsanNote] else [].

Definition handled_signals : list Z := [SIGILL; SIGSEGV; SIGBUS; SIGABRT].

(** What [PrintStackTraceLine] writes for the compiled-in symbol. *)
Definition symbol_events (symbol : option string) : list event :=
  match symbol with
  | Some sym => [Stderr (Symbol sym)]
  | None => []
  end.

(** ** The symbolizer of the OS_MACOSX branch *)

Definition atos_cmd (pid frame : Z) : string :=
  snprintf (Z.to_nat kLineMax)
    ("xcrun atos " ++ fmt_p frame ++ " -p " ++ fmt_d pid ++ "  2>&1").

(** [static int pid = getpid();] the initialiser runs on the first
    pass only; later passes read what it stored. *)
Definition static_pid (W : os) : M Z :=
  (cached <- get macosx_pid ;;
   match cached with
   | Some pid => ret pid
   | None => modify (set_macosx_pid (os_getpid W)) ;; ret (os_getpid W)
   end)%prog.

(** [PrintStackTraceLine] as compiled under OS_MACOSX. *)
Definition PrintStackTraceLine_macosx (W : os) (symbol : option string) (frame : Z)
  : M unit :=
  (pid <- static_pid W ;;
   (* out source to atos, for the address translation *)
   let cmd := atos_cmd pid frame in
   emit (Popen cmd) ;;
   match os_popen W cmd with
   | Some stream => echo_lines (S (String.length stream)) stream ;; emit Pclose
   | None =>
       match symbol with
       | Some sym => fprintf_stderr (Symbol sym)
       | None => ret tt
       end
   end ;;
   fprintf_stderr EndOfLine)%prog.

(** ** More readings of an event list *)

(** The commands handed to [popen], in order. *)
Definition launched (out : list event) : list string :=
  flat_map (fun e => match e with Popen cmd => [cmd] | _ => [] end) out.

(** The compiled-in symbols written, in order. *)
Definition symbols_written (out : list event) : list string :=
  flat_map (fun e => match e with Stderr (Symbol sym) => [sym] | _ => [] end) out.

(** The lines of tool output echoed, in order. *)
Definition tool_lines (out : list event) : list string :=
  flat_map (fun e => match e with Stderr (ToolLine line) => [line] | _ => [] end) out.

(** Calls of [signal] and [raise]. *)
Definition signal_event (e : event) : bool :=
  match e with
  | Signal _ _ | Raise _ => true
  | _ => false
  end.

(** What the built-in unwinder, printer and symbolizer can do. *)
Definition unwinder_event (e : event) : bool :=
  match e with
  | Backtrace _ | BacktraceSymbols _ | Free_symbols | Readlink _ | Popen _ | Pclose
  | Stderr (FrameIndex _) | Stderr (Symbol _) | Stderr (ToolLine _)
  | Stderr (RawAddress _) | Stderr EndOfLine => true
  | _ => false
  end.

(** A computation that leaves the signal table as it found it. *)
Definition keeps_dispositions {A} (m : M A) : Prop :=
  forall s a s' out, m s = Ret a s' out -> disposition s' = disposition s.

(** A stream without newlines. *)
Fixpoint no_lf (s : string) : bool :=
  match s with
  | EmptyString => true
  | String c rest => negb (Ascii.eqb c LF) && no_lf rest
  end.

(** A line of text as a tool writes it, short enough for the line
    buffer to take it with its newline. *)
Definition short_line (l : string) : Prop :=
  no_nul l = true /\ no_lf l = true /\ (String.length l <= 254)%nat.

(** The lines, each followed by a newline. *)
Fixpoint unlines (ls : list string) : string :=
  match ls with
  | [] => EmptyString
  | l :: rest => (l ++ EOL ++ unlines rest)%string
  end.

(** The statics after [InstallStackTraceHandler]. *)
Definition installed (W : os) (s : state) : state :=
  let register sig s0 :=
    if os_signal_succeeds W sig then set_disposition sig To_StackTraceHandler s0 else s0 in
  register SIGABRT (register SIGBUS (register SIGSEGV (register SIGILL s))).

(** The formatted text of the addr2line command before it is cut to
    the command buffer. *)
Definition addr2line_text (frame : Z) (exe : string) : string :=
  ("addr2line " ++ fmt_p frame ++ " -e " ++ exe ++ " -f -C 2>&1")%string.

(** ** Concrete machines *)

Module Machines.

(** A process whose environment holds [ROCKSDB_DEBUG] as given, whose
    /proc/<pid>/exe reads as [exe], whose pipes deliver [pipe], in which
    [fork] returns [fork_result] and the child's wait status is [wstatus],
    called from a function whose callers return to [callers].
    [PrintStack(int)] is at 0x1000 and called from 0x1010, [SaveStack] is
    at 0x1100 and called from 0x1110. *)
Definition machine (debug_env exe pipe : option string) (fork_result wstatus : Z)
    (callers : list Z) : os :=
  {| os_getpid := 4000; os_gettid := 4001;
     os_getenv := fun name => if String.eqb name "ROCKSDB_DEBUG" then debug_env else None;
     os_readlink := fun _ _ => exe;
     os_pc_PrintStack := 4096; os_pc_SaveStack := 4352;
     os_ra_PrintStack := 4112; os_ra_SaveStack := 4368;
     os_call_stack := callers;
     os_backtrace_symbols := None;
     os_popen := fun _ => pipe;
     os_fork := fork_result; os_execlp_succeeds := false; os_wstatus := wstatus;
     os_malloc_succeeds := fun _ => true;
     os_signal_succeeds := fun _ => true;
     os_strsignal := fun _ => "Aborted" |}.

(** No debugger requested, no executable path, nothing to launch. *)
Definition plain (callers : list Z) : os := machine None None None 4242 256 callers.

(** Five calls deep, counting the capturing function and its caller. *)
Definition five_deep : os := plain [4128; 4144; 4160].

(** Two calls deep: shallower than the three frames the handler skips. *)
Definition two_deep : os := plain [].

(** The executable is /bin/db. *)
Definition with_path (debug_env : option string) (pipe : option string) (wstatus : Z) : os :=
  machine debug_env (Some "/bin/db") pipe 4242 wstatus [4128].

(** The executable's path cannot be read; this is the parent of the fork. *)
Definition without_path (debug_env : option string) (wstatus : Z) : os :=
  machine debug_env None None 4242 wstatus [4128].

(** The answer for /proc/<pid>/exe changes after the first query. *)
Definition moving_executable : os :=
  {| os_getpid := 4000; os_gettid := 4001;
     os_getenv := fun _ => None;
     os_readlink := fun n _ => match n with O => Some "/bin/db" | S _ => Some "/bin/other" end;
     os_pc_PrintStack := 4096; os_pc_SaveStack := 4352;
     os_ra_PrintStack := 4112; os_ra_SaveStack := 4368;
     os_call_stack := [4128];
     os_backtrace_symbols := None;
     os_popen := fun _ => None;
     os_fork := 4242; os_execlp_succeeds := false; os_wstatus := 256;
     os_malloc_succeeds := fun _ => true;
     os_signal_succeeds := fun _ => true;
     os_strsignal := fun _ => "Aborted" |}.

(** [backtrace_symbols] answers, and no executable path can be read. *)
Definition with_symbols : os :=
  {| os_getpid := 4000; os_gettid := 4001;
     os_getenv := fun _ => None;
     os_readlink := fun _ _ => None;
     os_pc_PrintStack := 4096; os_pc_SaveStack := 4352;
     os_ra_PrintStack := 4112; os_ra_SaveStack := 4368;
     os_call_stack := [4128];
     os_backtrace_symbols := Some (fun a => if a =? 4096 then "db(PrintStack+0x10)"
                                            else "db(main+0x20)");
     os_popen := fun _ => None;
     os_fork := 4242; os_execlp_succeeds := false; os_wstatus := 256;
     os_malloc_succeeds := fun _ => true;
     os_signal_succeeds := fun _ => true;
     os_strsignal := fun _ => "Aborted" |}.

(** A line of 255 letters. *)
Definition long_line : string := string_of_list_ascii (repeat "a"%char 255).

(** A pipe that delivers a NUL byte and a newline. *)
Definition nul_pipe : string := String NUL (String LF EmptyString).

(** The forked child, with the debugger requested. *)
Definition debug_child : os := machine (Some "1") None None 0 0 [4128].


(** A process forked from [five_deep]: the same, under another number. *)
Definition forked_copy : os :=
  {| os_getpid := 4242; os_gettid := 4242;
     os_getenv := os_getenv five_deep;
     os_readlink := os_readlink five_deep;
     os_pc_PrintStack := os_pc_PrintStack five_deep;
     os_pc_SaveStack := os_pc_SaveStack five_deep;
     os_ra_PrintStack := os_ra_PrintStack five_deep;
     os_ra_SaveStack := os_ra_SaveStack five_deep;
     os_call_stack := os_call_stack five_deep;
     os_backtrace_symbols := os_backtrace_symbols five_deep;
     os_popen := os_popen five_deep;
     os_fork := 0; os_execlp_succeeds := false; os_wstatus := os_wstatus five_deep;
     os_malloc_succeeds := os_malloc_succeeds five_deep;
     os_signal_succeeds := os_signal_succeeds five_deep;
     os_strsignal := os_strsignal five_deep |}.

Definition static_build : build :=
  {| ROCKSDB_DLL := false; PR_SET_PTRACER_ANY := true; SANITIZE_THREAD := false |}.

Definition shared_build : build :=
  {| ROCKSDB_DLL := true; PR_SET_PTRACER_ANY := true; SANITIZE_THREAD := false |}.

End Machines.

(** * Properties *)

Open Scope list_scope.

(** ** The monad *)

Lemma after_nil {A} (o : outcome A) : after [] o = o.
Proof. destruct o; reflexivity. Qed.

Lemma after_app {A} (out1 out2 : list event) (o : outcome A) :
  after (out1 ++ out2) o = after out1 (after out2 o).
Proof. destruct o; simpl; rewrite app_assoc; reflexivity. Qed.

Lemma events_after {A} (out : list event) (o : outcome A) :
  events (after out o) = out ++ events o.
Proof. destruct o; reflexivity. Qed.

Lemma returns_after {A} (out : list event) (o : outcome A) :
  returns (after out o) = returns o.
Proof. destruct o; reflexivity. Qed.

Lemma bind_ret {A B} (m : M A) (f : A -> M B) s a s' out :
  m s = Ret a s' out -> bind m f s = after out (f a s').
Proof. unfold bind; intros ->; reflexivity. Qed.

Lemma bind_emit {B} (e : event) (k : unit -> M B) s :
  bind (emit e) k s = after [e] (k tt s).
Proof. reflexivity. Qed.

Lemma events_bind {A B} (m : M A) (f : A -> M B) s :
  events (bind m f s) =
  match m s with
  | Ret a s' out => out ++ events (f a s')
  | Replaced out => out
  | Undefined out => out
  end.
Proof. unfold bind; destruct (m s); [apply events_after | reflexivity | reflexivity]. Qed.

Lemma stateless_bind {A B} (m : M A) (f : A -> M B) :
  stateless m -> (forall a, stateless (f a)) -> stateless (bind m f).
Proof.
  intros Hm Hf s b s' out. unfold bind.
  destruct (m s) as [a s1 out1 | |] eqn:Hms; try discriminate.
  apply Hm in Hms as ->.
  destruct (f a s) as [b' s2 out2 | |] eqn:Hfs; cbn [after]; try discriminate.
  intros [= _ <- _]. eapply Hf; eassumption.
Qed.

Lemma total_bind {A B} (m : M A) (f : A -> M B) :
  total m -> (forall a, total (f a)) -> total (bind m f).
Proof.
  intros Hm Hf s. unfold bind. specialize (Hm s).
  destruct (m s) as [a s1 out1 | |]; try discriminate.
  rewrite returns_after. apply Hf.
Qed.

Lemma emits_bind {A B} (P : event -> Prop) (m : M A) (f : A -> M B) :
  emits P m -> (forall a, emits P (f a)) -> emits P (bind m f).
Proof.
  intros Hm Hf s. rewrite events_bind. specialize (Hm s).
  destruct (m s) as [a s1 out1 | |]; cbn [events] in *; try assumption.
  apply Forall_app; split; [assumption | apply Hf].
Qed.

Lemma stateless_emit (e : event) : stateless (emit e).
Proof. intros s a s' out [= _ <- _]; reflexivity. Qed.

Lemma total_emit (e : event) : total (emit e).
Proof. intros s; reflexivity. Qed.

Lemma emits_emit (P : event -> Prop) (e : event) : P e -> emits P (emit e).
Proof. intros He s; constructor; [exact He | constructor]. Qed.

Lemma stateless_ret {A} (a : A) : stateless (ret a).
Proof. intros s a' s' out [= _ <- _]; reflexivity. Qed.

Lemma total_ret {A} (a : A) : total (ret a).
Proof. intros s; reflexivity. Qed.

Lemma emits_ret {A} (P : event -> Prop) (a : A) : emits P (ret a).
Proof. intros s; constructor. Qed.

Lemma emits_undefined {A} (P : event -> Prop) : emits P (@undefined A).
Proof. intros s; constructor. Qed.

Lemma stateless_undefined {A} : stateless (@undefined A).
Proof. intros s a s' out; discriminate. Qed.

(** A computation on [unit] that is total and stateless returns in the
    state it started from. *)
Lemma total_stateless_run (m : M unit) (s : state) :
  total m -> stateless m -> exists out, m s = Ret tt s out.
Proof.
  intros Ht Hs. specialize (Ht s). specialize (Hs s).
  destruct (m s) as [[] s' out | |]; try discriminate.
  rewrite (Hs tt s' out eq_refl). eexists; reflexivity.
Qed.

(** ** C strings *)

Lemma c_str_terminated (chunk tail : string) :
  no_nul chunk = true -> c_str (chunk ++ String NUL tail) = chunk.
Proof.
  induction chunk as [| c chunk IH]; simpl; intros H.
  - reflexivity.
  - apply andb_true_iff in H as [Hc Hrest].
    apply negb_true_iff in Hc. rewrite Hc, IH; auto.
Qed.

Lemma fgets_chunk_text (n : nat) (stream : string) :
  no_nul stream = true ->
  no_nul (fst (fgets_chunk n stream)) = true /\
  no_nul (snd (fgets_chunk n stream)) = true /\
  (String.length (fst (fgets_chunk n stream)) <= n)%nat.
Proof.
  revert stream; induction n as [| n IH]; intros stream H.
  - simpl. repeat split; auto.
  - destruct stream as [| c rest]; simpl.
    + repeat split; auto with arith.
    + simpl in H. apply andb_true_iff in H as [Hc Hrest].
      destruct (Ascii.eqb c LF).
      * simpl. rewrite Hc. repeat split; auto. lia.
      * specialize (IH rest Hrest).
        destruct (fgets_chunk n rest) as [chunk rest']; simpl in *.
        destruct IH as (H1 & H2 & H3).
        rewrite Hc, H1. repeat split; auto. lia.
Qed.

Lemma fgets_chunk_length (n : nat) (stream : string) :
  (String.length (fst (fgets_chunk n stream)) + String.length (snd (fgets_chunk n stream))
   = String.length stream)%nat.
Proof.
  revert stream; induction n as [| n IH]; intros [| c rest]; try reflexivity.
  cbn [fgets_chunk]. destruct (Ascii.eqb c LF); [reflexivity |].
  specialize (IH rest). destruct (fgets_chunk n rest) as [chunk r].
  cbn [fst snd String.length] in *. lia.
Qed.

Lemma fgets_chunk_head (n : nat) (c : ascii) (rest : string) :
  exists tl, fst (fgets_chunk (S n) (String c rest)) = String c tl.
Proof.
  cbn [fgets_chunk]. destruct (Ascii.eqb c LF); [eexists; reflexivity |].
  destruct (fgets_chunk n rest); eexists; reflexivity.
Qed.

(** A chunk that [fgets] stores is never empty, and the stream gets
    shorter by its length. *)
Lemma fgets_chunk_progress (n : nat) (c : ascii) (rest : string) :
  fst (fgets_chunk (S n) (String c rest)) <> EmptyString /\
  (String.length (snd (fgets_chunk (S n) (String c rest))) < String.length (String c rest))%nat.
Proof.
  pose proof (fgets_chunk_length (S n) (String c rest)) as Hlen.
  destruct (fgets_chunk_head n c rest) as [tl Htl].
  rewrite Htl in *. cbn [String.length] in *. split; [discriminate | lia].
Qed.

Lemma fgets_shrinks (stream line rest : string) :
  fgets (Z.to_nat kLineMax) stream = Some (line, rest) ->
  (String.length rest < String.length stream)%nat.
Proof.
  unfold fgets. destruct stream as [| c r]; [discriminate |].
  change (Z.to_nat kLineMax - 1)%nat with 255%nat.
  pose proof (fgets_chunk_progress 254 c r) as [_ Hlt].
  destruct (fgets_chunk 255 (String c r)) as [chunk r']; simpl in *.
  intros [= <- <-]. exact Hlt.
Qed.

(** On text, the buffer [fgets] fills holds a C string of 1 to 255
    bytes, and text is left in the stream. *)
Lemma fgets_text (stream line rest : string) :
  no_nul stream = true ->
  fgets (Z.to_nat kLineMax) stream = Some (line, rest) ->
  1 <= strlen line <= 255 /\ no_nul rest = true.
Proof.
  intros Htext. unfold fgets. destruct stream as [| c r]; [discriminate |].
  change (Z.to_nat kLineMax - 1)%nat with 255%nat.
  pose proof (fgets_chunk_progress 254 c r) as [Hne _].
  pose proof (fgets_chunk_text 255 (String c r) Htext) as (H1 & H2 & H3).
  destruct (fgets_chunk 255 (String c r)) as [chunk r']; simpl in *.
  intros [= <- <-]. unfold strlen. rewrite c_str_terminated by assumption.
  split; [| assumption].
  destruct chunk; [congruence | simpl in *; lia].
Qed.

Lemma newline_index_text (line : string) :
  1 <= strlen line <= 255 -> newline_index line = strlen line - 1.
Proof.
  intros H. unfold newline_index, size_t, SIZE_MOD.
  apply Z.mod_small. lia.
Qed.

(** ** The symbolizer *)

Ltac run_emit := unfold fprintf_stderr; rewrite ?bind_emit.

Lemma echo_lines_fuel (fuel1 fuel2 : nat) (stream : string) (s : state) :
  (String.length stream < fuel1)%nat -> (String.length stream < fuel2)%nat ->
  echo_lines fuel1 stream s = echo_lines fuel2 stream s.
Proof.
  revert fuel2 stream; induction fuel1 as [| fuel1 IH]; intros fuel2 stream H1 H2; [lia |].
  destruct fuel2 as [| fuel2]; [lia |].
  cbn [echo_lines].
  destruct (fgets (Z.to_nat kLineMax) stream) as [[line rest] |] eqn:Hget; [| reflexivity].
  apply fgets_shrinks in Hget.
  destruct ((0 <=? newline_index line) && (newline_index line <? kLineMax)); [| reflexivity].
  run_emit. f_equal. apply IH; lia.
Qed.

Lemma echo_lines_stateless (fuel : nat) (stream : string) :
  stateless (echo_lines fuel stream).
Proof.
  revert stream; induction fuel as [| fuel IH]; intros stream; cbn [echo_lines].
  - apply stateless_ret.
  - destruct (fgets (Z.to_nat kLineMax) stream) as [[line rest] |];
      [| apply stateless_ret].
    destruct ((0 <=? newline_index line) && (newline_index line <? kLineMax));
      [| apply stateless_undefined].
    apply stateless_bind; [apply stateless_emit | intros _; apply IH].
Qed.

Lemma echo_lines_emits (fuel : nat) (stream : string) :
  emits tool_line (echo_lines fuel stream).
Proof.
  revert stream; induction fuel as [| fuel IH]; intros stream; cbn [echo_lines].
  - apply emits_ret.
  - destruct (fgets (Z.to_nat kLineMax) stream) as [[line rest] |];
      [| apply emits_ret].
    destruct ((0 <=? newline_index line) && (newline_index line <? kLineMax));
      [| apply emits_undefined].
    apply emits_bind; [apply emits_emit; exact I | intros _; apply IH].
Qed.

(** On text the read loop runs to the end of the stream. *)
Lemma echo_lines_total (fuel : nat) (stream : string) :
  no_nul stream = true -> total (echo_lines fuel stream).
Proof.
  revert stream; induction fuel as [| fuel IH]; intros stream Htext; cbn [echo_lines].
  - apply total_ret.
  - destruct (fgets (Z.to_nat kLineMax) stream) as [[line rest] |] eqn:Hget;
      [| apply total_ret].
    destruct (fgets_text _ _ _ Htext Hget) as [Hlen Hrest].
    rewrite (newline_index_text line Hlen).
    replace ((0 <=? strlen line - 1) && (strlen line - 1 <? kLineMax)) with true
      by (symmetry; apply andb_true_iff; unfold kLineMax; split;
          [apply Z.leb_le | apply Z.ltb_lt]; lia).
    apply total_bind; [apply total_emit | intros _; apply IH; exact Hrest].
Qed.

Lemma emits_weaken {A} (P Q : event -> Prop) (m : M A) :
  (forall e, P e -> Q e) -> emits P m -> emits Q m.
Proof. intros HPQ Hm s. eapply Forall_impl; [exact HPQ | apply Hm]. Qed.

Lemma tool_line_is_line_event (out : list event) :
  Forall tool_line out -> Forall line_event out.
Proof.
  apply Forall_impl. intros [[] | | | | | | | | | | | | | | | |]; simpl; auto.
Qed.

Lemma line_event_no_index (out : list event) :
  Forall line_event out -> frame_indices out = [] /\ readlink_events out = [].
Proof.
  induction 1 as [| e out He _ [IH1 IH2]]; [split; reflexivity |].
  unfold frame_indices, readlink_events in *. cbn [flat_map filter].
  rewrite IH1, IH2.
  destruct e as [[] | | | | | | | | | | | | | | | |]; simpl in He; try contradiction;
    split; reflexivity.
Qed.

Lemma tool_line_no_end (out : list event) :
  Forall tool_line out -> line_ends out = 0%nat.
Proof.
  unfold line_ends.
  induction 1 as [| e out He _ IH]; [reflexivity |].
  cbn [filter]. destruct e as [[] | | | | | | | | | | | | | | | |]; simpl in He;
    try contradiction; exact IH.
Qed.

Lemma line_ends_app (out1 out2 : list event) :
  line_ends (out1 ++ out2) = (line_ends out1 + line_ends out2)%nat.
Proof. unfold line_ends. rewrite filter_app, length_app. reflexivity. Qed.

Lemma frame_indices_app (out1 out2 : list event) :
  frame_indices (out1 ++ out2) = frame_indices out1 ++ frame_indices out2.
Proof. apply flat_map_app. Qed.

Lemma readlink_events_app (out1 out2 : list event) :
  readlink_events (out1 ++ out2) = readlink_events out1 ++ readlink_events out2.
Proof. apply filter_app. Qed.

(** The part of a line after the static is read: symbol, then the
    tool's echo or the raw address, then the line end. *)
Lemma line_body_emits (W : os) exe symbol frame :
  emits line_event (line_body W exe symbol frame).
Proof.
  unfold line_body, fprintf_stderr.
  apply emits_bind; [destruct symbol; [apply emits_emit; exact I | apply emits_ret] |].
  intros _. apply emits_bind; [| intros _; apply emits_emit; exact I].
  destruct exe as [path |]; [| apply emits_emit; exact I].
  apply emits_bind; [apply emits_emit; exact I | intros _].
  destruct (os_popen W (addr2line_cmd frame path)) as [stream |]; [| apply emits_ret].
  apply emits_bind; [| intros _; apply emits_emit; exact I].
  apply (emits_weaken tool_line); [| apply echo_lines_emits].
  intros [[] | | | | | | | | | | | | | | | |]; simpl; auto.
Qed.

Lemma line_body_stateless (W : os) exe symbol frame :
  stateless (line_body W exe symbol frame).
Proof.
  unfold line_body, fprintf_stderr.
  apply stateless_bind; [destruct symbol; [apply stateless_emit | apply stateless_ret] |].
  intros _. apply stateless_bind; [| intros _; apply stateless_emit].
  destruct exe as [path |]; [| apply stateless_emit].
  apply stateless_bind; [apply stateless_emit | intros _].
  destruct (os_popen W (addr2line_cmd frame path)) as [stream |]; [| apply stateless_ret].
  apply stateless_bind; [apply echo_lines_stateless | intros _; apply stateless_emit].
Qed.

Lemma line_body_total (W : os) exe symbol frame :
  text_tool W -> total (line_body W exe symbol frame).
Proof.
  intros Htool. unfold line_body, fprintf_stderr.
  apply total_bind; [destruct symbol; [apply total_emit | apply total_ret] |].
  intros _. apply total_bind; [| intros _; apply total_emit].
  destruct exe as [path |]; [| apply total_emit].
  apply total_bind; [apply total_emit | intros _].
  destruct (os_popen W (addr2line_cmd frame path)) as [stream |] eqn:Hpopen;
    [| apply total_ret].
  apply total_bind; [| intros _; apply total_emit].
  apply echo_lines_total. exact (Htool _ _ Hpopen).
Qed.

Lemma run_bind {A B} (m : M A) (f : A -> M B) s a s1 out1 b s2 out2 :
  m s = Ret a s1 out1 -> f a s1 = Ret b s2 out2 ->
  bind m f s = Ret b s2 (out1 ++ out2).
Proof. intros Hm Hf. unfold bind. rewrite Hm, Hf. reflexivity. Qed.

(** With a tool that writes text, a line is the optional symbol, the
    translation, and exactly one line end. *)
Lemma line_body_run (W : os) exe symbol frame s :
  text_tool W ->
  exists out, line_body W exe symbol frame s = Ret tt s out /\
              Forall line_event out /\ line_ends out = 1%nat.
Proof.
  intros Htool.
  destruct (total_stateless_run (line_body W exe symbol frame) s
              (line_body_total W exe symbol frame Htool)
              (line_body_stateless W exe symbol frame)) as [out Hrun].
  exists out. split; [exact Hrun |].
  pose proof (line_body_emits W exe symbol frame s) as Hev. rewrite Hrun in Hev.
  split; [exact Hev |].
  (* count the line ends along the three steps *)
  revert Hrun. unfold line_body, fprintf_stderr.
  set (sym_step := match symbol with Some sym => emit (Stderr (Symbol sym)) | None => ret tt end).
  set (translate := match exe with Some path => _ | None => _ end).
  assert (Hsym : exists o1, sym_step s = Ret tt s o1 /\ line_ends o1 = 0%nat).
  { subst sym_step. destruct symbol; eexists; split; reflexivity. }
  assert (Htr : exists o2, translate s = Ret tt s o2 /\ line_ends o2 = 0%nat).
  { subst translate. destruct exe as [path |]; [| eexists; split; reflexivity].
    run_emit. destruct (os_popen W (addr2line_cmd frame path)) as [stream |] eqn:Hpopen.
    - destruct (total_stateless_run _ s
                  (echo_lines_total (S (String.length stream)) stream (Htool _ _ Hpopen))
                  (echo_lines_stateless (S (String.length stream)) stream)) as [o Ho].
      pose proof (echo_lines_emits (S (String.length stream)) stream s) as Hecho.
      rewrite Ho in Hecho. cbn [events] in Hecho.
      rewrite (run_bind _ _ _ _ _ _ _ _ _ Ho eq_refl). cbn [after].
      eexists; split; [reflexivity |].
      change (line_ends ([Popen (addr2line_cmd frame path)] ++ (o ++ [Pclose])) = 0%nat).
      rewrite !line_ends_app, (tool_line_no_end o Hecho). reflexivity.
    - eexists; split; reflexivity. }
  destruct Hsym as (o1 & Ho1 & Hn1). destruct Htr as (o2 & Ho2 & Hn2).
  rewrite (run_bind _ _ _ _ _ _ _ _ _ Ho1
             (run_bind _ _ _ _ _ _ _ _ _ Ho2 (eq_refl : emit (Stderr EndOfLine) s = _))).
  intros [= <-]. rewrite !line_ends_app, Hn1, Hn2. reflexivity.
Qed.

(** *** The static [executable] *)

Lemma static_executable_run (W : os) (s : state) :
  static_executable W s = Ret (static_value W s) (static_state W s) (static_events W s).
Proof.
  unfold static_executable, static_value, static_state, static_events, bind, get.
  destruct (executable s) as [v |] eqn:Hexe; [reflexivity |].
  unfold GetExecutableName, resolved_path, bind, get, emit, modify. cbn [after app].
  destruct (os_readlink W (readlinks s) _); reflexivity.
Qed.

Lemma PrintStackTraceLine_run (W : os) symbol frame s :
  PrintStackTraceLine W symbol frame s =
  after (static_events W s) (line_body W (static_value W s) symbol frame (static_state W s)).
Proof.
  change (PrintStackTraceLine W symbol frame)
    with (bind (static_executable W) (fun exe => line_body W exe symbol frame)).
  apply (bind_ret (static_executable W) (fun exe => line_body W exe symbol frame)).
  apply static_executable_run.
Qed.

Lemma static_state_executable (W : os) (s : state) :
  executable (static_state W s) = Some (static_value W s).
Proof.
  unfold static_state, static_value. destruct (executable s) eqn:H; [exact H | reflexivity].
Qed.

Lemma static_state_idem (W : os) (s : state) :
  static_state W (static_state W s) = static_state W s.
Proof.
  unfold static_state at 1. rewrite static_state_executable. reflexivity.
Qed.

Lemma static_state_cached (W : os) (s : state) v :
  executable s = Some v ->
  static_state W s = s /\ static_value W s = v /\ static_events W s = [].
Proof. unfold static_state, static_value, static_events. intros ->. auto. Qed.

(** A call after the first reads the static and nothing else. *)
Lemma PrintStackTraceLine_cached (W : os) symbol frame s v :
  executable s = Some v ->
  PrintStackTraceLine W symbol frame s = line_body W v symbol frame s.
Proof.
  intros H. rewrite PrintStackTraceLine_run.
  destruct (static_state_cached W s v H) as (-> & -> & ->). apply after_nil.
Qed.

(** ** Captured stacks *)

Lemma backtrace_cons (W : os) (who : capturer) :
  exists pc ra,
    own_frames W who = [pc; ra] /\
    backtrace W who kMaxFrames
    = pc :: ra :: firstn (Z.to_nat kMaxFrames - 2) (os_call_stack W).
Proof.
  unfold backtrace. destruct who; do 2 eexists; split; reflexivity.
Qed.

(** A capture holds at least the two frames of the capturing function
    and of its caller, and at most [kMaxFrames]; both capturing functions
    store the same number. *)
Lemma backtrace_length (W : os) (who : capturer) :
  2 <= Z.of_nat (length (backtrace W who kMaxFrames)) <= kMaxFrames /\
  length (backtrace W who kMaxFrames) = length (backtrace W By_PrintStack kMaxFrames).
Proof.
  destruct (backtrace_cons W who) as (pc & ra & _ & ->).
  destruct (backtrace_cons W By_PrintStack) as (pc' & ra' & _ & ->).
  cbn [length].
  pose proof (firstn_le_length (Z.to_nat kMaxFrames - 2) (os_call_stack W)).
  unfold kMaxFrames in *. split; [lia | reflexivity].
Qed.

(** From the third entry on, the two captures hold the same addresses. *)
Lemma backtrace_shared (W : os) (who : capturer) (skip : Z) :
  2 <= skip ->
  skipn (Z.to_nat skip) (backtrace W who kMaxFrames)
  = skipn (Z.to_nat skip - 2) (firstn (Z.to_nat kMaxFrames - 2) (os_call_stack W)).
Proof.
  intros Hskip. destruct (backtrace_cons W who) as (pc & ra & _ & ->).
  destruct (Z.to_nat skip) as [| [| k]] eqn:Hk; try lia.
  cbn [skipn Nat.sub]. rewrite Nat.sub_0_r. reflexivity.
Qed.

Lemma skipn_nth_error {X} (l : list X) (k : nat) (a : X) :
  nth_error l k = Some a -> skipn k l = a :: skipn (S k) l.
Proof.
  revert k; induction l as [| x l IH]; intros [| k]; simpl; try discriminate.
  - intros [= ->]. reflexivity.
  - intros H. rewrite (IH k H). reflexivity.
Qed.

(** Reading [n] addresses that lie inside the captured part. *)
Lemma frames_from_inside (l : list Z) (off : Z) (n : nat) (i : Z) :
  0 <= off + i -> off + i + Z.of_nat n <= Z.of_nat (length l) ->
  frames_from {| base := l; offset := off |} n i
  = Some (firstn n (skipn (Z.to_nat (off + i)) l)).
Proof.
  revert i; induction n as [| n IH]; intros i Hlo Hhi; [reflexivity |].
  cbn [frames_from]. unfold frame_at. cbn [base offset].
  replace (0 <=? off + i) with true by (symmetry; apply Z.leb_le; lia).
  destruct (nth_error l (Z.to_nat (off + i))) as [a |] eqn:Hnth.
  - rewrite IH by lia.
    rewrite (skipn_nth_error _ _ _ Hnth). cbn [firstn].
    replace (Z.to_nat (off + (i + 1))) with (S (Z.to_nat (off + i))) by lia.
    reflexivity.
  - apply nth_error_None in Hnth. lia.
Qed.

Lemma frames_from_head (frames : frames_ptr) (n : nat) (i : Z) (l : list Z) :
  frames_from frames (S n) i = Some l ->
  exists a l', l = a :: l' /\ frame_at frames i = Some a /\
               frames_from frames n (i + 1) = Some l'.
Proof.
  cbn [frames_from]. destruct (frame_at frames i) as [a |]; [| discriminate].
  destruct (frames_from frames n (i + 1)) as [l' |]; [| discriminate].
  intros [= <-]. eauto.
Qed.

(** The transient capture of [PrintStack(int)] holds the raw capture
    without its first [skip] addresses. *)
Lemma transient_capture_frames (W : os) (skip : Z) :
  0 <= skip ->
  frames_from (fst (transient_capture W skip))
              (Z.to_nat (snd (transient_capture W skip))) 0
  = Some (skipn (Z.to_nat skip) (backtrace W By_PrintStack kMaxFrames)).
Proof.
  intros Hskip. unfold transient_capture. cbn [fst snd].
  set (raw := backtrace W By_PrintStack kMaxFrames).
  destruct (Z.le_gt_cases skip (Z.of_nat (length raw))) as [Hle | Hgt].
  - rewrite frames_from_inside by lia.
    rewrite Z.add_0_r. apply f_equal, firstn_all2. rewrite length_skipn. lia.
  - replace (Z.to_nat (Z.of_nat (length raw) - skip)) with 0%nat by lia.
    cbn [frames_from]. rewrite skipn_all2 by lia. reflexivity.
Qed.

(** ** The printing loop *)

(** The loop looks at its pointer through the addresses it reads. *)
Lemma PrintStack_loop_frames (W : os) symbols frames1 frames2 (n : nat) (i : Z) l s :
  frames_from frames1 n i = Some l -> frames_from frames2 n i = Some l ->
  PrintStack_loop W symbols frames1 n i s = PrintStack_loop W symbols frames2 n i s.
Proof.
  revert i l s; induction n as [| n IH]; intros i l s H1 H2; [reflexivity |].
  apply frames_from_head in H1 as (a & l' & -> & Ha1 & Hl1).
  apply frames_from_head in H2 as (a2 & l2 & [= <- <-] & Ha2 & Hl2).
  cbn [PrintStack_loop]. rewrite Ha1, Ha2. run_emit. f_equal.
  unfold bind. destruct (PrintStackTraceLine W _ a s) as [[] s1 out1 | |]; try reflexivity.
  f_equal. eapply IH; eassumption.
Qed.

(** In every run, also one that stops at an address it cannot read or
    inside the symbolizer, the numbers written so far are
    [i, i+1, ...] without a gap. *)
Lemma PrintStack_loop_counts_up (W : os) symbols frames (n : nat) (i : Z) s :
  exists m, (m <= n)%nat /\
            frame_indices (events (PrintStack_loop W symbols frames n i s)) = iota i m.
Proof.
  revert i s; induction n as [| n IH]; intros i s.
  - exists 0%nat. split; [lia | reflexivity].
  - cbn [PrintStack_loop]. run_emit. rewrite events_after, frame_indices_app.
    destruct (frame_at frames i) as [a |]; [| exists 1%nat; split; [lia | reflexivity]].
    rewrite events_bind, PrintStackTraceLine_run.
    set (symbol := option_map (fun symbol_of => symbol_of a) symbols).
    pose proof (line_body_emits W (static_value W s) symbol a (static_state W s)) as Hev.
    assert (Hstatic : frame_indices (static_events W s) = [])
      by (unfold static_events; destruct (executable s); reflexivity).
    destruct (line_body W (static_value W s) symbol a (static_state W s))
      as [[] s1 o1 | o1 | o1]; cbn [after events] in *;
      rewrite ?frame_indices_app, Hstatic, (proj1 (line_event_no_index o1 Hev)).
    + destruct (IH (i + 1) s1) as (m & Hm & ->).
      exists (S m). split; [lia | reflexivity].
    + exists 1%nat. split; [lia | reflexivity].
    + exists 1%nat. split; [lia | reflexivity].
Qed.

(** With a tool that writes text, the loop prints every frame it is
    given: the numbers [i, i+1, ...] and one line each. *)
Lemma PrintStack_loop_run (W : os) symbols frames (n : nat) (i : Z) l s :
  text_tool W -> frames_from frames n i = Some l ->
  exists out,
    PrintStack_loop W symbols frames n i s
    = Ret tt (match n with O => s | S _ => static_state W s end) out /\
    frame_indices out = iota i n /\ line_ends out = n /\
    readlink_events out = match n with O => [] | S _ => static_events W s end.
Proof.
  intros Htool. revert i l s; induction n as [| n IH]; intros i l s Hl.
  - exists []. repeat split; auto.
  - apply frames_from_head in Hl as (a & l' & -> & Ha & Hl').
    cbn [PrintStack_loop]. rewrite Ha. run_emit.
    set (symbol := option_map (fun symbol_of => symbol_of a) symbols).
    destruct (line_body_run W (static_value W s) symbol a (static_state W s) Htool)
      as (o1 & Hline & Hev1 & Hends1).
    pose proof (PrintStackTraceLine_run W symbol a s) as Hcall.
    rewrite Hline in Hcall. cbn [after] in Hcall.
    destruct (IH (i + 1) l' (static_state W s) Hl') as (o2 & Hloop & Hidx2 & Hends2 & Hrl2).
    rewrite (run_bind _ _ _ _ _ _ _ _ _ Hcall Hloop). cbn [after].
    eexists. split.
    + f_equal. destruct n; [reflexivity | apply static_state_idem].
    + destruct (line_event_no_index o1 Hev1) as [Hidx1 Hrl1].
      assert (Hrl2' : readlink_events o2 = []).
      { rewrite Hrl2. destruct n; [reflexivity |].
        unfold static_events at 1. rewrite static_state_executable. reflexivity. }
      assert (Hst : frame_indices (static_events W s) = [] /\
                    line_ends (static_events W s) = 0%nat /\
                    readlink_events (static_events W s) = static_events W s).
      { unfold static_events. destruct (executable s); repeat split; reflexivity. }
      destruct Hst as (Hs1 & Hs2 & Hs3).
      repeat split.
      * rewrite !frame_indices_app, Hs1, Hidx1, Hidx2. reflexivity.
      * rewrite !line_ends_app, Hs2, Hends1, Hends2. reflexivity.
      * rewrite !readlink_events_app, Hs3, Hrl1, Hrl2'.
        cbn [readlink_events filter app]. rewrite !app_nil_r. reflexivity.
Qed.

Lemma iota_seq (n : nat) (i : nat) :
  iota (Z.of_nat i) n = map Z.of_nat (seq i n).
Proof.
  revert i; induction n as [| n IH]; intros i; [reflexivity |].
  cbn [iota seq map]. f_equal.
  replace (Z.of_nat i + 1) with (Z.of_nat (S i)) by lia. apply IH.
Qed.

(** [void PrintStack(void* frames[], int num_frames)] on frames that
    were captured, with a tool that writes text. *)
Lemma PrintStack_frames_run (W : os) frames (num_frames : Z) l s :
  text_tool W -> -1 <= num_frames ->
  frames_from frames (Z.to_nat num_frames) 0 = Some l ->
  exists s' out,
    PrintStack_frames W frames num_frames s = Ret tt s' out /\
    frame_indices out = iota 0 (Z.to_nat num_frames) /\
    line_ends out = Z.to_nat num_frames /\
    (s' = s \/ s' = static_state W s).
Proof.
  intros Htool Hcount Hl. unfold PrintStack_frames. run_emit.
  replace (num_frames <? -1) with false by (symmetry; apply Z.ltb_ge; lia).
  destruct (PrintStack_loop_run W (os_backtrace_symbols W) frames _ 0 l s Htool Hl)
    as (out & Hloop & Hidx & Hends & _).
  rewrite (run_bind _ _ _ _ _ _ _ _ _ Hloop (eq_refl : emit Free_symbols _ = _)).
  cbn [after]. do 2 eexists. split; [reflexivity |].
  change ([BacktraceSymbols num_frames] ++ out ++ [Free_symbols])
    with (([BacktraceSymbols num_frames] ++ out) ++ [Free_symbols]) at 1.
  rewrite !frame_indices_app, !line_ends_app, Hidx, Hends.
  cbn. rewrite app_nil_r. repeat split; [lia |].
  destruct (Z.to_nat num_frames); auto.
Qed.

Lemma unwind_and_print_eq (W : os) (skip : Z) s :
  0 <= skip <= kMaxFrames ->
  unwind_and_print W skip s
  = after [Backtrace kMaxFrames]
      (PrintStack_frames W (fst (transient_capture W skip))
                         (snd (transient_capture W skip)) s).
Proof.
  intros Hskip. unfold unwind_and_print. run_emit.
  replace ((0 <=? skip) && (skip <=? kMaxFrames)) with true
    by (symmetry; apply andb_true_iff; split; apply Z.leb_le; lia).
  destruct (transient_capture W skip); reflexivity.
Qed.

Lemma unwind_and_print_run (W : os) (skip : Z) s :
  text_tool W -> 0 <= skip <= kMaxFrames ->
  skip <= Z.of_nat (length (backtrace W By_PrintStack kMaxFrames)) + 1 ->
  exists s' out,
    unwind_and_print W skip s = Ret tt s' out /\
    frame_indices out = iota 0 (Z.to_nat (snd (transient_capture W skip))) /\
    line_ends out = Z.to_nat (snd (transient_capture W skip)) /\
    (s' = s \/ s' = static_state W s).
Proof.
  intros Htool Hskip Hstored. rewrite unwind_and_print_eq by assumption.
  assert (Hcount : -1 <= snd (transient_capture W skip))
    by (unfold transient_capture; cbn [snd]; lia).
  destruct (PrintStack_frames_run W _ _ _ s Htool Hcount
              (transient_capture_frames W skip (proj1 Hskip)))
    as (s' & out & Hrun & Hidx & Hends & Hstate).
  rewrite Hrun. cbn [after]. do 2 eexists. split; [reflexivity |].
  rewrite frame_indices_app, line_ends_app, Hidx, Hends. repeat split; assumption.
Qed.

(** *** The ways through [PrintStack(int)] *)

Lemma PrintStack_builtin (W : os) (cfg : build) (skip : Z) :
  debugger_engaged W cfg = false -> PrintStack W cfg skip = unwind_and_print W skip.
Proof. unfold PrintStack, debugger_engaged. intros ->. reflexivity. Qed.

Lemma relax_ptrace_run (cfg : build) s :
  relax_ptrace cfg s = Ret tt s (relax_events cfg).
Proof. unfold relax_ptrace, relax_events. destruct (PR_SET_PTRACER_ANY cfg); reflexivity. Qed.

Lemma PrintStack_parent (W : os) (cfg : build) (skip : Z) s :
  debugger_engaged W cfg = true -> os_fork W <> 0 ->
  PrintStack W cfg skip s
  = after (relax_events cfg ++ [Fork; Waitpid (os_fork W)])
      (if child_succeeded W then Ret tt s []
       else after [Stderr GdbFailed] (unwind_and_print W skip s)).
Proof.
  unfold PrintStack, debugger_engaged, child_succeeded. intros -> Hfork.
  apply Z.eqb_neq in Hfork. rewrite Hfork.
  rewrite (bind_ret _ _ _ _ _ _ (relax_ptrace_run cfg s)). run_emit.
  destruct (WIFEXITED (os_wstatus W) && (WEXITSTATUS (os_wstatus W) =? EXIT_SUCCESS));
    rewrite ?bind_emit, <- !after_app, <- !app_assoc; reflexivity.
Qed.

(** [SaveStack] with a skip inside the raw capture. *)
Lemma SaveStack_run (W : os) (skip : Z) s :
  let raw := backtrace W By_SaveStack kMaxFrames in
  let n := Z.of_nat (length raw) - skip in
  0 <= skip <= Z.of_nat (length raw) ->
  os_malloc_succeeds W (sizeof_ptr * n) = true ->
  SaveStack W skip s
  = Ret ({| base := skipn (Z.to_nat skip) raw; offset := 0 |}, n) s
        [Backtrace kMaxFrames; Malloc (sizeof_ptr * n)].
Proof.
  intros raw n Hskip Hmalloc. pose proof (proj1 (backtrace_length W By_SaveStack)) as Hlen.
  fold raw in Hlen. unfold kMaxFrames in Hlen.
  unfold SaveStack, SaveStack_num_frames. fold raw. fold n. run_emit.
  assert (Hn : 0 <= n <= 100) by (subst n; lia).
  replace (in_int n) with true
    by (symmetry; unfold in_int, INT_MIN, INT_MAX; apply andb_true_iff;
        split; apply Z.leb_le; lia).
  cbn [negb].
  assert (Hsize : size_t (sizeof_ptr * size_t n) = sizeof_ptr * n).
  { unfold size_t, SIZE_MOD, sizeof_ptr.
    rewrite (Z.mod_small n) by lia. apply Z.mod_small. lia. }
  rewrite Hsize. run_emit.
  destruct (sizeof_ptr * n =? 0) eqn:Hzero.
  - apply Z.eqb_eq in Hzero. unfold sizeof_ptr in Hzero.
    rewrite skipn_all2 by (subst n; lia). reflexivity.
  - rewrite Hmalloc.
    replace (sizeof_ptr * n <=? PTRDIFF_MAX) with true
      by (symmetry; apply Z.leb_le; unfold sizeof_ptr, PTRDIFF_MAX; lia).
    cbn [andb].
    replace (sizeof_ptr * n / sizeof_ptr) with n
      by (unfold sizeof_ptr; rewrite Z.mul_comm, Z.div_mul; lia).
    rewrite frames_from_inside by (subst n; lia).
    rewrite Z.add_0_r, firstn_all2 by (rewrite length_skipn; subst n; lia).
    reflexivity.
Qed.

(** What [SaveStack] returns can be read back in full. *)
Lemma saved_frames (l : list Z) :
  frames_from {| base := l; offset := 0 |} (length l) 0 = Some l.
Proof.
  rewrite frames_from_inside by lia. cbn [Z.add Z.to_nat skipn].
  rewrite firstn_all. reflexivity.
Qed.

Lemma PrintStack_child (W : os) (cfg : build) (skip : Z) s :
  debugger_engaged W cfg = true -> os_fork W = 0 ->
  PrintStack W cfg skip s
  = if os_execlp_succeeds W then Replaced (relax_events cfg ++ Fork :: child_events W)
    else Ret tt s (relax_events cfg ++ Fork :: child_events W).
Proof.
  unfold PrintStack, debugger_engaged, child_events. intros -> ->.
  change (0 =? 0) with true. cbv iota.
  rewrite (bind_ret _ _ _ _ _ _ (relax_ptrace_run cfg s)). run_emit.
  destruct (debug_requested (os_getenv W "ROCKSDB_DEBUG")); run_emit;
    unfold bind, execlp; destruct (os_execlp_succeeds W); cbn [after app ret];
    rewrite ?app_nil_r; reflexivity.
Qed.

Lemma static_state_disposition (W : os) (s : state) :
  disposition (static_state W s) = disposition s.
Proof. unfold static_state. destruct (executable s); reflexivity. Qed.



(** ** The concrete machines launch nothing but text *)

Lemma no_pipe_text_tool debug_env exe fork_result wstatus stack :
  text_tool (Machines.machine debug_env exe None fork_result wstatus stack).
Proof. intros cmd stream; discriminate. Defined.

Lemma plain_text_tool (stack : list Z) : text_tool (Machines.plain stack).
Proof. apply no_pipe_text_tool. Defined.


(** * The fault signal handler *)

Lemma signal_run (W : os) (sig : Z) (h : sighandler) s :
  signal W sig h s
  = Ret tt (if os_signal_succeeds W sig then set_disposition sig h s else s) [Signal sig h].
Proof.
  unfold signal. run_emit. destruct (os_signal_succeeds W sig); reflexivity.
Qed.

(** In every run, also one that ends inside [PrintStack], the handler's
    events are the reset, the signal line, those of [PrintStack(3)] and,
    if that call returns, the note for TSAN builds and the re-raise. *)
Lemma StackTraceHandler_events (W : os) (cfg : build) (sig : Z) (s : state) :
  let reset := if os_signal_succeeds W sig then set_disposition sig SIG_DFL s else s in
  events (StackTraceHandler W cfg sig s)
  = [Signal sig SIG_DFL; Stderr (ReceivedSignal sig (os_strsignal W sig))]
    ++ events (PrintStack W cfg 3 reset)
    ++ (if returns (PrintStack W cfg 3 reset) then tsan_events cfg ++ [Raise sig] else []).
Proof.
  intros reset. unfold StackTraceHandler.
  rewrite (bind_ret _ _ _ _ _ _ (signal_run W sig SIG_DFL s)). fold reset.
  run_emit. rewrite !events_after, events_bind.
  destruct (PrintStack W cfg 3 reset) as [[] s' body | body | body];
    cbn [events returns]; rewrite ?app_nil_r; [| reflexivity | reflexivity].
  unfold tsan_events, raise. destruct (SANITIZE_THREAD cfg); reflexivity.
Qed.


Example StackTraceHandler_abort :
  events (StackTraceHandler Machines.five_deep Machines.static_build SIGABRT initial_state)
  =   [Signal SIGABRT SIG_DFL; Stderr (ReceivedSignal SIGABRT "Aborted");
       Backtrace 100; BacktraceSymbols 2;
       Stderr (FrameIndex 0); Readlink "/proc/4000/exe";
       Stderr (RawAddress 4144); Stderr EndOfLine;
       Stderr (FrameIndex 1); Stderr (RawAddress 4160); Stderr EndOfLine;
       Free_symbols; Raise SIGABRT].
Proof. vm_compute. reflexivity. Qed.


(** * Installing the handler *)

Lemma disposition_after_signal (W : os) (sig0 sig : Z) (h : sighandler) s :
  disposition (if os_signal_succeeds W sig0 then set_disposition sig0 h s else s) sig
  = if (sig =? sig0) && os_signal_succeeds W sig0 then h else disposition s sig.
Proof.
  destruct (os_signal_succeeds W sig0); cbn [set_disposition disposition];
    destruct (sig =? sig0); reflexivity.
Qed.

(** C7. Installing registers the handler for the four signals SIGILL,
    SIGSEGV, SIGBUS and SIGABRT and for no other, then relaxes the
    tracing restrictions (where the build knows PR_SET_PTRACER_ANY). It
    returns nothing, and it returns normally whether or not a
    registration succeeds: a signal whose registration fails keeps its
    old disposition, and the caller is not told. *)
Theorem InstallStackTraceHandler_registers (W : os) (cfg : build) (s : state) :
  PR_SET_PTRACER_ANY cfg = true ->
  exists s',
    InstallStackTraceHandler W cfg s
    = Ret tt s' [Signal SIGILL To_StackTraceHandler; Signal SIGSEGV To_StackTraceHandler;
                 Signal SIGBUS To_StackTraceHandler; Signal SIGABRT To_StackTraceHandler;
                 Prctl_SET_PTRACER_ANY] /\
    (forall sig,
        disposition s' sig
        = if existsb (Z.eqb sig) handled_signals && os_signal_succeeds W sig
          then To_StackTraceHandler else disposition s sig) /\
    executable s' = executable s /\ readlinks s' = readlinks s.
Proof.
  intros Hmacro. unfold InstallStackTraceHandler.
  rewrite (bind_ret _ _ _ _ _ _ (signal_run W SIGILL To_StackTraceHandler s)).
  rewrite (bind_ret _ _ _ _ _ _ (signal_run W SIGSEGV To_StackTraceHandler _)).
  rewrite (bind_ret _ _ _ _ _ _ (signal_run W SIGBUS To_StackTraceHandler _)).
  rewrite (bind_ret _ _ _ _ _ _ (signal_run W SIGABRT To_StackTraceHandler _)).
  rewrite relax_ptrace_run. unfold relax_events. rewrite Hmacro. cbn [after app].
  eexists. split; [reflexivity |]. split.
  - intros sig. rewrite !disposition_after_signal.
    unfold handled_signals. cbn [existsb].
    destruct (Z.eqb_spec sig SIGABRT) as [-> | _];
      [destruct (os_signal_succeeds W SIGABRT); reflexivity |].
    destruct (Z.eqb_spec sig SIGBUS) as [-> | _];
      [destruct (os_signal_succeeds W SIGBUS); reflexivity |].
    destruct (Z.eqb_spec sig SIGSEGV) as [-> | _];
      [destruct (os_signal_succeeds W SIGSEGV); reflexivity |].
    destruct (Z.eqb_spec sig SIGILL) as [-> | _];
      [destruct (os_signal_succeeds W SIGILL); reflexivity |].
    reflexivity.
  - destruct (os_signal_succeeds W SIGILL), (os_signal_succeeds W SIGSEGV),
      (os_signal_succeeds W SIGBUS), (os_signal_succeeds W SIGABRT); split; reflexivity.
Qed.

Lemma InstallStackTraceHandler_registers_witness :
  PR_SET_PTRACER_ANY Machines.static_build = true /\
  exists s',
    InstallStackTraceHandler Machines.five_deep Machines.static_build initial_state
    = Ret tt s' [Signal SIGILL To_StackTraceHandler; Signal SIGSEGV To_StackTraceHandler;
                 Signal SIGBUS To_StackTraceHandler; Signal SIGABRT To_StackTraceHandler;
                 Prctl_SET_PTRACER_ANY] /\
    (forall sig,
        disposition s' sig
        = if existsb (Z.eqb sig) handled_signals && os_signal_succeeds Machines.five_deep sig
          then To_StackTraceHandler else disposition initial_state sig) /\
    executable s' = executable initial_state /\ readlinks s' = readlinks initial_state.
Proof.
  split; [reflexivity |].
  exact (InstallStackTraceHandler_registers Machines.five_deep Machines.static_build
           initial_state eq_refl).
Defined.

(** * Frame counts *)

(** C2, as stated, fails: two calls deep and three frames skipped (the
    handler's own skip), both capture operations compute the count -1. *)
Lemma capture_count_negative :
  snd (transient_capture Machines.two_deep 3) = -1 /\
  SaveStack_num_frames Machines.two_deep 3 = -1 /\
  ~ (0 <= snd (transient_capture Machines.two_deep 3) <= kMaxFrames - 3) /\
  ~ (0 <= SaveStack_num_frames Machines.two_deep 3 <= kMaxFrames - 3).
Proof.
  assert (H1 : snd (transient_capture Machines.two_deep 3) = -1) by reflexivity.
  assert (H2 : SaveStack_num_frames Machines.two_deep 3 = -1) by reflexivity.
  rewrite H1, H2. repeat split; lia.
Qed.

(** C2, amended. When the skip is between 0 and the number of frames the
    unwinder stored (itself at most 100), both capture operations compute
    the count as that number minus the skip: it is between 0 and
    100 - skip, hence at most 100, and it is the number of addresses the
    captured stack holds. *)
Theorem capture_count_bounds (W : os) (skip : Z) :
  0 <= skip <= Z.of_nat (length (backtrace W By_PrintStack kMaxFrames)) ->
  let n := Z.of_nat (length (backtrace W By_PrintStack kMaxFrames)) - skip in
  length (backtrace W By_SaveStack kMaxFrames) = length (backtrace W By_PrintStack kMaxFrames) /\
  snd (transient_capture W skip) = n /\
  SaveStack_num_frames W skip = n /\
  0 <= n <= kMaxFrames - skip /\ n <= kMaxFrames /\
  frames_from (fst (transient_capture W skip)) (Z.to_nat n) 0
  = Some (skipn (Z.to_nat skip) (backtrace W By_PrintStack kMaxFrames)) /\
  Z.of_nat (length (skipn (Z.to_nat skip) (backtrace W By_PrintStack kMaxFrames))) = n /\
  Z.of_nat (length (skipn (Z.to_nat skip) (backtrace W By_SaveStack kMaxFrames))) = n /\
  (os_malloc_succeeds W (sizeof_ptr * n) = true ->
   forall s, SaveStack W skip s
             = Ret ({| base := skipn (Z.to_nat skip) (backtrace W By_SaveStack kMaxFrames);
                       offset := 0 |}, n)
                   s [Backtrace kMaxFrames; Malloc (sizeof_ptr * n)]).
Proof.
  intros Hskip n.
  pose proof (proj1 (backtrace_length W By_PrintStack)) as Hlen.
  pose proof (proj2 (backtrace_length W By_SaveStack)) as Hsame.
  split; [exact Hsame |]. split; [reflexivity |].
  split; [unfold SaveStack_num_frames; rewrite Hsame; reflexivity |].
  split; [subst n; lia |]. split; [subst n; lia |]. split; [| split; [| split]].
  - apply (transient_capture_frames W skip). lia.
  - rewrite length_skipn. subst n. lia.
  - rewrite length_skipn, Hsame. subst n. lia.
  - intros Hmalloc s. subst n. rewrite <- Hsame in *. apply SaveStack_run; assumption.
Qed.

Lemma capture_count_bounds_witness :
  0 <= 3 <= Z.of_nat (length (backtrace Machines.five_deep By_PrintStack kMaxFrames)) /\
  length (backtrace Machines.five_deep By_SaveStack kMaxFrames)
  = length (backtrace Machines.five_deep By_PrintStack kMaxFrames) /\
  snd (transient_capture Machines.five_deep 3) = 2 /\
  SaveStack_num_frames Machines.five_deep 3 = 2 /\
  0 <= 2 <= kMaxFrames - 3 /\ 2 <= kMaxFrames /\
  frames_from (fst (transient_capture Machines.five_deep 3)) (Z.to_nat 2) 0
  = Some (skipn (Z.to_nat 3) (backtrace Machines.five_deep By_PrintStack kMaxFrames)) /\
  Z.of_nat (length (skipn (Z.to_nat 3) (backtrace Machines.five_deep By_PrintStack kMaxFrames)))
  = 2 /\
  Z.of_nat (length (skipn (Z.to_nat 3) (backtrace Machines.five_deep By_SaveStack kMaxFrames)))
  = 2 /\
  (os_malloc_succeeds Machines.five_deep (sizeof_ptr * 2) = true ->
   forall s, SaveStack Machines.five_deep 3 s
             = Ret ({| base := skipn (Z.to_nat 3)
                                 (backtrace Machines.five_deep By_SaveStack kMaxFrames);
                       offset := 0 |}, 2)
                   s [Backtrace kMaxFrames; Malloc (sizeof_ptr * 2)]).
Proof.
  assert (H : 0 <= 3 <= Z.of_nat (length (backtrace Machines.five_deep By_PrintStack kMaxFrames)))
    by (vm_compute; split; discriminate).
  split; [exact H |].
  exact (capture_count_bounds Machines.five_deep 3 H).
Defined.

(** * The symbolizer's fallback *)

(** C3, as stated, fails: with the executable known as /bin/db and a
    [popen] that returns NULL, the line for frame 0x1234 consists of the
    line end alone; no address is written. *)
Lemma launch_failure_prints_no_address :
  PrintStackTraceLine (Machines.with_path None None 0) None 4660 initial_state
  = Ret tt (static_state (Machines.with_path None None 0) initial_state)
      [Readlink "/proc/4000/exe"; Popen "addr2line 0x1234 -e /bin/db -f -C 2>&1";
       Stderr EndOfLine] /\
  raw_addresses (events (PrintStackTraceLine (Machines.with_path None None 0) None 4660
                           initial_state)) = [] /\
  stderr_text (events (PrintStackTraceLine (Machines.with_path None None 0) None 4660
                         initial_state)) = EOL.
Proof. repeat split; vm_compute; reflexivity. Qed.

(** C3, amended. When no executable path is known, the line is the
    optional symbol, the frame's raw address and the line end. When the
    path is known and the tool cannot be launched, the line is the
    optional symbol and the line end, without an address. Either way the
    call returns; it cannot leave defined behaviour. *)
Theorem symbolizer_fallback (W : os) (symbol : option string) (frame : Z) (s : state) :
  (static_value W s = None \/
   exists path, static_value W s = Some path /\ os_popen W (addr2line_cmd frame path) = None) ->
  PrintStackTraceLine W symbol frame s
  = Ret tt (static_state W s)
      (static_events W s ++ symbol_events symbol ++
       match static_value W s with
       | None => [Stderr (RawAddress frame)]
       | Some path => [Popen (addr2line_cmd frame path)]
       end ++ [Stderr EndOfLine]).
Proof.
  intros Hcase. rewrite PrintStackTraceLine_run. unfold line_body, symbol_events.
  destruct Hcase as [-> | (path & -> & Hpopen)].
  - destruct symbol; reflexivity.
  - run_emit. rewrite Hpopen. destruct symbol; reflexivity.
Qed.

Lemma symbolizer_fallback_witness :
  (static_value Machines.five_deep initial_state = None \/
   exists path, static_value Machines.five_deep initial_state = Some path /\
                os_popen Machines.five_deep (addr2line_cmd 4660 path) = None) /\
  PrintStackTraceLine Machines.five_deep (Some "main+0x10") 4660 initial_state
  = Ret tt (static_state Machines.five_deep initial_state)
      (static_events Machines.five_deep initial_state ++ symbol_events (Some "main+0x10") ++
       match static_value Machines.five_deep initial_state with
       | None => [Stderr (RawAddress 4660)]
       | Some path => [Popen (addr2line_cmd 4660 path)]
       end ++ [Stderr EndOfLine]).
Proof.
  assert (H : static_value Machines.five_deep initial_state = None \/
              exists path, static_value Machines.five_deep initial_state = Some path /\
                           os_popen Machines.five_deep (addr2line_cmd 4660 path) = None)
    by (left; reflexivity).
  split; [exact H |].
  exact (symbolizer_fallback Machines.five_deep (Some "main+0x10") 4660 initial_state H).
Defined.

Example raw_address_line :
  stderr_text (events (PrintStackTraceLine Machines.five_deep (Some "main+0x10") 4660
                         initial_state))
  = ("main+0x10  0x1234" ++ EOL)%string.
Proof. vm_compute. reflexivity. Qed.

(** With the tool missing from the PATH, [popen] still starts the shell,
    and the shell's complaint is what gets echoed. *)
Example missing_tool_line :
  stderr_text (events (PrintStackTraceLine
                         (Machines.with_path None
                            (Some ("sh: 1: addr2line: not found" ++ EOL)%string) 0)
                         None 4660 initial_state))
  = ("sh: 1: addr2line: not found" ++ String "009"%char EOL)%string.
Proof. vm_compute. reflexivity. Qed.

(** * The debugger and the fallback *)

(** C4, as stated, fails: with ROCKSDB_DEBUG=1, in the parent, a
    debugger that exits with status 1 is followed by the notice and by the
    built-in unwinder and symbolizer, which print all three frames. *)
Lemma debug_mode_falls_back :
  debug_requested (os_getenv (Machines.without_path (Some "1") 256) "ROCKSDB_DEBUG") = true /\
  child_succeeded (Machines.without_path (Some "1") 256) = false /\
  events (PrintStack (Machines.without_path (Some "1") 256) Machines.static_build 0
            initial_state)
  = [Prctl_SET_PTRACER_ANY; Fork; Waitpid 4242; Stderr GdbFailed;
     Backtrace 100; BacktraceSymbols 3;
     Stderr (FrameIndex 0); Readlink "/proc/4000/exe";
     Stderr (RawAddress 4096); Stderr EndOfLine;
     Stderr (FrameIndex 1); Stderr (RawAddress 4112); Stderr EndOfLine;
     Stderr (FrameIndex 2); Stderr (RawAddress 4128); Stderr EndOfLine;
     Free_symbols].
Proof. repeat split; vm_compute; reflexivity. Qed.

(** C4, amended. With the debugger requested through ROCKSDB_DEBUG:
    in the forked child, a debugger that cannot be executed makes
    [PrintStack] return to its caller without the built-in path; in the
    parent, a child that did not exit with success is followed by the
    fallback notice and the built-in path, as in stack-dump mode. *)
Theorem debug_mode_failure (W : os) (cfg : build) (skip : Z) (s : state) :
  debug_requested (os_getenv W "ROCKSDB_DEBUG") = true ->
  (os_fork W = 0 -> os_execlp_succeeds W = false ->
   PrintStack W cfg skip s
   = Ret tt s (relax_events cfg ++
               [Fork;
                Stderr (InvokingDebug
                          (c_str (match os_getenv W "ROCKSDB_DEBUG" with
                                  | Some v => v
                                  | None => EmptyString
                                  end)));
                Execlp ["gdb"; "-p";
                        snprintf 20 (fmt_d (match os_getenv W "ROCKSDB_DEBUG_USE_PID" with
                                            | None => os_gettid W
                                            | Some _ => os_getpid W
                                            end))]])) /\
  (os_fork W <> 0 -> child_succeeded W = false ->
   PrintStack W cfg skip s
   = after (relax_events cfg ++ [Fork; Waitpid (os_fork W); Stderr GdbFailed])
       (unwind_and_print W skip s)).
Proof.
  intros Hdebug.
  assert (Hengaged : debugger_engaged W cfg = true)
    by (unfold debugger_engaged; rewrite Hdebug; apply orb_true_r).
  split.
  - intros Hchild Hexec.
    rewrite (PrintStack_child W cfg skip s Hengaged Hchild), Hexec.
    unfold child_events. rewrite Hdebug. reflexivity.
  - intros Hparent Hfailed.
    rewrite (PrintStack_parent W cfg skip s Hengaged Hparent), Hfailed.
    rewrite <- after_app, <- app_assoc. reflexivity.
Qed.

Lemma debug_mode_failure_witness :
  debug_requested (os_getenv (Machines.without_path (Some "1") 256) "ROCKSDB_DEBUG") = true /\
  PrintStack (Machines.without_path (Some "1") 256) Machines.static_build 0 initial_state
  = after (relax_events Machines.static_build ++ [Fork; Waitpid 4242; Stderr GdbFailed])
      (unwind_and_print (Machines.without_path (Some "1") 256) 0 initial_state) /\
  PrintStack Machines.debug_child Machines.static_build 0 initial_state
  = Ret tt initial_state
      (relax_events Machines.static_build ++
       [Fork; Stderr (InvokingDebug "1"); Execlp ["gdb"; "-p"; "4001"]]).
Proof.
  split; [reflexivity |]. split.
  - refine (proj2 (debug_mode_failure (Machines.without_path (Some "1") 256)
                     Machines.static_build 0 initial_state eq_refl) _ eq_refl).
    discriminate.
  - exact (proj1 (debug_mode_failure Machines.debug_child Machines.static_build 0
                    initial_state eq_refl) eq_refl eq_refl).
Defined.




Example notice_then_frames :
  stderr_text (events (PrintStack (Machines.without_path None 256) Machines.shared_build 1
                         initial_state))
  = ("GDB failed; falling back on backtrace+addr2line..." ++ EOL ++
     "#0    0x1010" ++ EOL ++
     "#1    0x1020" ++ EOL)%string.
Proof. vm_compute. reflexivity. Qed.

(** * Saved and transient stacks *)

Lemma events_then_emit {A} (m : M A) (e : event) s :
  events (bind m (fun _ => emit e) s)
  = events (m s) ++ (if returns (m s) then [e] else []).
Proof.
  rewrite events_bind. destruct (m s); cbn [events returns emit];
    rewrite ?app_nil_r; reflexivity.
Qed.

(** The printer behaves the same on two pointers that read the same
    addresses. *)
Lemma PrintStack_frames_same (W : os) frames1 frames2 (num_frames : Z) l s :
  frames_from frames1 (Z.to_nat num_frames) 0 = Some l ->
  frames_from frames2 (Z.to_nat num_frames) 0 = Some l ->
  PrintStack_frames W frames1 num_frames s = PrintStack_frames W frames2 num_frames s.
Proof.
  intros H1 H2. unfold PrintStack_frames. run_emit. f_equal.
  destruct (num_frames <? -1); [reflexivity |]. unfold bind.
  rewrite (PrintStack_loop_frames W _ frames1 frames2 _ 0 l s H1 H2). reflexivity.
Qed.

Lemma raw_addresses_frame_output (out : list event) :
  raw_addresses (frame_output out) = raw_addresses out.
Proof.
  unfold raw_addresses, frame_output.
  induction out as [| e out IH]; [reflexivity |].
  destruct e as [[] | | | | | | | | | | | | | | | |]; cbn [filter flat_map app];
    rewrite IH; reflexivity.
Qed.

Lemma frame_output_app (out1 out2 : list event) :
  frame_output (out1 ++ out2) = frame_output out1 ++ frame_output out2.
Proof. apply filter_app. Qed.

Lemma frame_output_relax (cfg : build) : frame_output (relax_events cfg) = [].
Proof. unfold relax_events. destruct (PR_SET_PTRACER_ANY cfg); reflexivity. Qed.

(** C6, as stated, fails, in two ways. In a shared-library build whose
    debugger child exits with success, the direct print leaves the frames
    to the debugger and writes no address itself, while saving and
    printing writes the address left after the skip. And with the
    built-in unwinder on both sides, a skip below 2 leaves in the two
    outputs the return address of the call itself, which is one address
    for the call of [SaveStack] and another for the call of
    [PrintStack]. *)
Lemma save_then_print_differs :
  raw_addresses (events (save_then_print (Machines.without_path None 0) 2 initial_state))
  = [4128] /\
  PrintStack (Machines.without_path None 0) Machines.shared_build 2 initial_state
  = Ret tt initial_state [Prctl_SET_PTRACER_ANY; Fork; Waitpid 4242] /\
  raw_addresses (events (PrintStack (Machines.without_path None 0) Machines.shared_build 2
                           initial_state)) = [] /\
  debugger_engaged Machines.five_deep Machines.static_build = false /\
  raw_addresses (events (save_then_print Machines.five_deep 1 initial_state))
  = [4368; 4128; 4144; 4160] /\
  raw_addresses (events (PrintStack Machines.five_deep Machines.static_build 1 initial_state))
  = [4112; 4128; 4144; 4160] /\
  raw_addresses (events (save_then_print Machines.five_deep 1 initial_state))
  <> raw_addresses (events (PrintStack Machines.five_deep Machines.static_build 1
                              initial_state)).
Proof. repeat split; vm_compute; try reflexivity; discriminate. Qed.

(** C6, amended. When the skip is at least 2 and lies inside the raw
    capture, the allocation succeeds, [SaveStack] and [PrintStack] are
    called from the same function, and the direct print goes through the
    built-in unwinder (the debugger is not engaged, or this is the parent
    and the debugger child did not exit with success): the saved stack and
    the transient one hold the same addresses, those of the calling
    function's callers left after the skip, and saving followed by
    print-and-free produces the same frame output, address for address, as
    the direct print. *)
Theorem save_then_print_matches_direct (W : os) (cfg : build) (skip : Z) (s : state) :
  2 <= skip <= Z.of_nat (length (backtrace W By_PrintStack kMaxFrames)) ->
  os_malloc_succeeds W
    (sizeof_ptr * (Z.of_nat (length (backtrace W By_PrintStack kMaxFrames)) - skip)) = true ->
  (debugger_engaged W cfg = false \/ (os_fork W <> 0 /\ child_succeeded W = false)) ->
  let addrs := skipn (Z.to_nat skip - 2)
                     (firstn (Z.to_nat kMaxFrames - 2) (os_call_stack W)) in
  let n := Z.of_nat (length (backtrace W By_PrintStack kMaxFrames)) - skip in
  exists callstack,
    SaveStack W skip s
    = Ret (callstack, n) s [Backtrace kMaxFrames; Malloc (sizeof_ptr * n)] /\
    frames_from callstack (Z.to_nat n) 0 = Some addrs /\
    frames_from (fst (transient_capture W skip)) (Z.to_nat n) 0 = Some addrs /\
    frame_output (events (save_then_print W skip s))
    = frame_output (events (PrintStack W cfg skip s)) /\
    raw_addresses (events (save_then_print W skip s))
    = raw_addresses (events (PrintStack W cfg skip s)).
Proof.
  intros Hskip Hmalloc Hpath addrs n.
  pose proof (proj1 (backtrace_length W By_PrintStack)) as Hlen.
  pose proof (proj2 (backtrace_length W By_SaveStack)) as Hsame.
  assert (Hsaved_addrs : skipn (Z.to_nat skip) (backtrace W By_SaveStack kMaxFrames) = addrs)
    by (apply backtrace_shared; lia).
  assert (Hdirect_addrs : skipn (Z.to_nat skip) (backtrace W By_PrintStack kMaxFrames) = addrs)
    by (apply backtrace_shared; lia).
  assert (Hcount : length addrs = Z.to_nat n)
    by (rewrite <- Hdirect_addrs, length_skipn; subst n; lia).
  assert (Hsave : SaveStack W skip s
                  = Ret ({| base := addrs; offset := 0 |}, n) s
                        [Backtrace kMaxFrames; Malloc (sizeof_ptr * n)]).
  { rewrite <- Hsaved_addrs. subst n. rewrite <- Hsame in *.
    apply SaveStack_run; [lia | assumption]. }
  assert (Hsaved : frames_from {| base := addrs; offset := 0 |} (Z.to_nat n) 0 = Some addrs)
    by (rewrite <- Hcount; apply saved_frames).
  assert (Htransient : frames_from (fst (transient_capture W skip)) (Z.to_nat n) 0 = Some addrs)
    by (rewrite <- Hdirect_addrs; apply (transient_capture_frames W skip); lia).
  assert (Houtput : frame_output (events (save_then_print W skip s))
                    = frame_output (events (PrintStack W cfg skip s))).
  { unfold save_then_print. rewrite (bind_ret _ _ _ _ _ _ Hsave). cbn [fst snd].
    rewrite events_after. unfold PrintAndFreeStack. rewrite events_then_emit.
    rewrite (PrintStack_frames_same W _ (fst (transient_capture W skip)) n addrs s
               Hsaved Htransient).
    set (printed := PrintStack_frames W (fst (transient_capture W skip)) n s).
    assert (Hdirect : events (unwind_and_print W skip s) = [Backtrace kMaxFrames] ++ events printed).
    { rewrite unwind_and_print_eq by (unfold kMaxFrames in *; lia).
      rewrite events_after. reflexivity. }
    assert (Hleft : frame_output ([Backtrace kMaxFrames; Malloc (sizeof_ptr * n)] ++
                                  events printed ++ (if returns printed then [Free_callstack] else []))
                    = frame_output (events printed)).
    { rewrite !frame_output_app. destruct (returns printed); cbn; rewrite ?app_nil_r; reflexivity. }
    rewrite Hleft.
    destruct (debugger_engaged W cfg) eqn:Hengaged.
    - destruct Hpath as [Hoff | [Hparent Hfailed]]; [discriminate |].
      rewrite (PrintStack_parent W cfg skip s Hengaged Hparent), Hfailed.
      rewrite !events_after, Hdirect, !frame_output_app, frame_output_relax. reflexivity.
    - rewrite (PrintStack_builtin W cfg skip Hengaged), Hdirect, frame_output_app.
      reflexivity. }
  eexists. split; [exact Hsave |]. split; [exact Hsaved |]. split; [exact Htransient |].
  split; [exact Houtput |].
  rewrite <- (raw_addresses_frame_output (events (save_then_print W skip s))), Houtput.
  apply raw_addresses_frame_output.
Qed.

Lemma save_then_print_matches_direct_witness :
  2 <= 2 <= Z.of_nat (length (backtrace Machines.five_deep By_PrintStack kMaxFrames)) /\
  os_malloc_succeeds Machines.five_deep
    (sizeof_ptr * (Z.of_nat (length (backtrace Machines.five_deep By_PrintStack kMaxFrames)) - 2))
  = true /\
  (debugger_engaged Machines.five_deep Machines.static_build = false \/
   (os_fork Machines.five_deep <> 0 /\ child_succeeded Machines.five_deep = false)) /\
  exists callstack,
    SaveStack Machines.five_deep 2 initial_state
    = Ret (callstack, 3) initial_state [Backtrace kMaxFrames; Malloc (sizeof_ptr * 3)] /\
    frames_from callstack (Z.to_nat 3) 0 = Some [4128; 4144; 4160] /\
    frames_from (fst (transient_capture Machines.five_deep 2)) (Z.to_nat 3) 0
    = Some [4128; 4144; 4160] /\
    frame_output (events (save_then_print Machines.five_deep 2 initial_state))
    = frame_output (events (PrintStack Machines.five_deep Machines.static_build 2
                              initial_state)) /\
    raw_addresses (events (save_then_print Machines.five_deep 2 initial_state))
    = raw_addresses (events (PrintStack Machines.five_deep Machines.static_build 2
                               initial_state)).
Proof.
  assert (Hskip : 2 <= 2 <= Z.of_nat (length (backtrace Machines.five_deep By_PrintStack
                                                 kMaxFrames)))
    by (vm_compute; split; discriminate).
  split; [exact Hskip |]. split; [reflexivity |]. split; [left; reflexivity |].
  exact (save_then_print_matches_direct Machines.five_deep Machines.static_build 2
           initial_state Hskip eq_refl (or_introl eq_refl)).
Defined.

(** * Frame numbering *)

(** C8. Whatever the skip K inside the raw capture, printing the stack
    captured with that skip, saved or transient, numbers the frames
    0, 1, 2, ... up to the captured count minus one: the numbers count
    positions in the captured stack, not in the call stack. *)
Theorem frame_numbers_from_zero (W : os) (K : Z) (s : state) :
  text_tool W ->
  0 <= K <= Z.of_nat (length (backtrace W By_PrintStack kMaxFrames)) ->
  os_malloc_succeeds W
    (sizeof_ptr * (Z.of_nat (length (backtrace W By_PrintStack kMaxFrames)) - K)) = true ->
  let n := Z.of_nat (length (backtrace W By_PrintStack kMaxFrames)) - K in
  exists callstack,
    SaveStack W K s
    = Ret (callstack, n) s [Backtrace kMaxFrames; Malloc (sizeof_ptr * n)] /\
    (exists s1 out1,
        PrintAndFreeStack W callstack n s = Ret tt s1 out1 /\
        frame_indices out1 = map Z.of_nat (seq 0 (Z.to_nat n))) /\
    (exists s2 out2,
        unwind_and_print W K s = Ret tt s2 out2 /\
        frame_indices out2 = map Z.of_nat (seq 0 (Z.to_nat n))).
Proof.
  intros Htool HK Hmalloc n.
  pose proof (proj1 (backtrace_length W By_PrintStack)) as Hlen.
  pose proof (proj2 (backtrace_length W By_SaveStack)) as Hsame.
  assert (Hsave : SaveStack W K s
                  = Ret ({| base := skipn (Z.to_nat K) (backtrace W By_SaveStack kMaxFrames);
                            offset := 0 |}, n) s
                        [Backtrace kMaxFrames; Malloc (sizeof_ptr * n)]).
  { subst n. rewrite <- Hsame in *. apply SaveStack_run; [lia | assumption]. }
  eexists. split; [exact Hsave |]. split.
  - assert (Hsaved : frames_from {| base := skipn (Z.to_nat K)
                                              (backtrace W By_SaveStack kMaxFrames);
                                    offset := 0 |} (Z.to_nat n) 0
                     = Some (skipn (Z.to_nat K) (backtrace W By_SaveStack kMaxFrames))).
    { replace (Z.to_nat n)
        with (length (skipn (Z.to_nat K) (backtrace W By_SaveStack kMaxFrames)))
        by (subst n; rewrite length_skipn; lia).
      apply saved_frames. }
    destruct (PrintStack_frames_run W _ n _ s Htool ltac:(subst n; lia) Hsaved)
      as (s1 & out & Hrun & Hidx & _).
    unfold PrintAndFreeStack.
    rewrite (run_bind _ _ _ _ _ _ _ _ _ Hrun (eq_refl : emit Free_callstack _ = _)).
    do 2 eexists. split; [reflexivity |].
    rewrite frame_indices_app, Hidx. cbn. rewrite app_nil_r.
    apply (iota_seq (Z.to_nat n) 0).
  - destruct (unwind_and_print_run W K s Htool) as (s2 & out & Hrun & Hidx & _);
      [unfold kMaxFrames in *; lia | lia |].
    do 2 eexists. split; [exact Hrun |]. rewrite Hidx.
    apply (iota_seq (Z.to_nat n) 0).
Qed.

Lemma frame_numbers_from_zero_witness :
  text_tool Machines.five_deep /\
  0 <= 2 <= Z.of_nat (length (backtrace Machines.five_deep By_PrintStack kMaxFrames)) /\
  os_malloc_succeeds Machines.five_deep
    (sizeof_ptr * (Z.of_nat (length (backtrace Machines.five_deep By_PrintStack kMaxFrames)) - 2)) = true /\
  exists callstack,
    SaveStack Machines.five_deep 2 initial_state
    = Ret (callstack, 3) initial_state [Backtrace kMaxFrames; Malloc (sizeof_ptr * 3)] /\
    (exists s1 out1,
        PrintAndFreeStack Machines.five_deep callstack 3 initial_state = Ret tt s1 out1 /\
        frame_indices out1 = [0; 1; 2]) /\
    (exists s2 out2,
        unwind_and_print Machines.five_deep 2 initial_state = Ret tt s2 out2 /\
        frame_indices out2 = [0; 1; 2]).
Proof.
  assert (HK : 0 <= 2 <= Z.of_nat (length (backtrace Machines.five_deep By_PrintStack kMaxFrames)))
    by (vm_compute; split; discriminate).
  split; [apply plain_text_tool |]. split; [exact HK |]. split; [reflexivity |].
  exact (frame_numbers_from_zero Machines.five_deep 2 initial_state
           (plain_text_tool _) HK eq_refl).
Defined.

(** * The executable path *)

(** Once the static holds a path, a run of symbolization calls issues no
    query and leaves the statics as they are. *)
Lemma symbolize_all_cached (W : os) (calls : list (option string * Z)) s v :
  executable s = Some v ->
  Forall line_event (events (symbolize_all W calls s)) /\
  forall a s' out, symbolize_all W calls s = Ret a s' out -> s' = s.
Proof.
  intros Hcached. induction calls as [| [symbol frame] later [IHev IHst]].
  - split; [constructor | intros a s' out [= _ <- _]; reflexivity].
  - cbn [symbolize_all]. unfold bind.
    rewrite (PrintStackTraceLine_cached W symbol frame s v Hcached).
    pose proof (line_body_emits W v symbol frame s) as Hev.
    pose proof (line_body_stateless W v symbol frame s) as Hst.
    destruct (line_body W v symbol frame s) as [[] s1 out1 | out1 | out1];
      cbn [events] in *;
      [| split; [exact Hev | discriminate] | split; [exact Hev | discriminate]].
    rewrite (Hst tt s1 out1 eq_refl). rewrite events_after. split.
    + apply Forall_app; split; assumption.
    + intros a s' out. destruct (symbolize_all W later s) as [a2 s2 out2 | |] eqn:Hlater;
        cbn [after]; try discriminate.
      intros [= _ <- _]. exact (IHst a2 s2 out2 eq_refl).
Qed.

(** C9. Starting with the static uninitialised, a run of symbolization
    calls issues exactly one query for the executable's path, in the
    first call. After that call the static holds the answer of that one
    query (a path or the null pointer); every later call behaves as
    [line_body] on that value, issues no query, and leaves the static and
    the query count as they are, whatever the operating system would
    answer by then. *)
Theorem executable_resolved_once (W : os) (first : option string * Z)
    (later : list (option string * Z)) (s : state) :
  executable s = None ->
  let path := resolved_path W (readlinks s) in
  readlink_events (events (symbolize_all W (first :: later) s))
  = [Readlink (snprintf 1024 ("/proc/" ++ fmt_d (os_getpid W) ++ "/exe")%string)] /\
  forall s1 out1,
    PrintStackTraceLine W (fst first) (snd first) s = Ret tt s1 out1 ->
    executable s1 = Some path /\ readlinks s1 = S (readlinks s) /\
    (forall symbol frame,
        PrintStackTraceLine W symbol frame s1 = line_body W path symbol frame s1) /\
    readlink_events (events (symbolize_all W later s1)) = [] /\
    (forall s2 out2, symbolize_all W later s1 = Ret tt s2 out2 -> s2 = s1).
Proof.
  intros Hfresh path. destruct first as [symbol frame]. cbn [fst snd].
  set (s1 := set_executable path (count_readlink s)).
  assert (Hcall : PrintStackTraceLine W symbol frame s
                  = after [Readlink (snprintf 1024
                                       ("/proc/" ++ fmt_d (os_getpid W) ++ "/exe")%string)]
                      (line_body W path symbol frame s1)).
  { rewrite PrintStackTraceLine_run.
    unfold static_events, static_value, static_state. rewrite Hfresh. reflexivity. }
  assert (Hs1 : executable s1 = Some path) by reflexivity.
  destruct (symbolize_all_cached W later s1 path Hs1) as [Hlater_ev Hlater_st].
  pose proof (line_body_emits W path symbol frame s1) as Hline_ev.
  pose proof (line_body_stateless W path symbol frame s1) as Hline_st.
  split.
  - cbn [symbolize_all]. rewrite events_bind, Hcall.
    destruct (line_body W path symbol frame s1) as [[] s1' o1 | o1 | o1];
      cbn [after events] in *.
    + rewrite (Hline_st tt s1' o1 eq_refl).
      change ((?x :: o1) ++ ?t) with ([x] ++ (o1 ++ t)).
      rewrite !readlink_events_app.
      rewrite (proj2 (line_event_no_index o1 Hline_ev)).
      rewrite (proj2 (line_event_no_index _ Hlater_ev)). reflexivity.
    + change (?x :: o1) with ([x] ++ o1). rewrite readlink_events_app.
      rewrite (proj2 (line_event_no_index o1 Hline_ev)). reflexivity.
    + change (?x :: o1) with ([x] ++ o1). rewrite readlink_events_app.
      rewrite (proj2 (line_event_no_index o1 Hline_ev)). reflexivity.
  - intros s1' out1. rewrite Hcall.
    destruct (line_body W path symbol frame s1) as [[] s1'' o1 | o1 | o1];
      cbn [after]; try discriminate.
    rewrite (Hline_st tt s1'' o1 eq_refl). intros [= <- _].
    split; [reflexivity |]. split; [reflexivity |]. split.
    + intros symbol' frame'. apply PrintStackTraceLine_cached. exact Hs1.
    + split.
      * exact (proj2 (line_event_no_index _ Hlater_ev)).
      * intros s2 out2. apply Hlater_st.
Qed.

Lemma executable_resolved_once_witness :
  executable initial_state = None /\
  readlink_events (events (symbolize_all Machines.moving_executable
                             [(None, 4096); (None, 4112); (None, 4128)] initial_state))
  = [Readlink "/proc/4000/exe"] /\
  forall s1 out1,
    PrintStackTraceLine Machines.moving_executable None 4096 initial_state = Ret tt s1 out1 ->
    executable s1 = Some (Some "/bin/db") /\ readlinks s1 = 1%nat /\
    (forall symbol frame,
        PrintStackTraceLine Machines.moving_executable symbol frame s1
        = line_body Machines.moving_executable (Some "/bin/db") symbol frame s1) /\
    readlink_events (events (symbolize_all Machines.moving_executable
                               [(None, 4112); (None, 4128)] s1)) = [] /\
    (forall s2 out2,
        symbolize_all Machines.moving_executable [(None, 4112); (None, 4128)] s1
        = Ret tt s2 out2 -> s2 = s1).
Proof.
  split; [reflexivity |].
  exact (executable_resolved_once Machines.moving_executable (None, 4096)
           [(None, 4112); (None, 4128)] initial_state eq_refl).
Defined.

Example moving_executable_commands :
  events (symbolize_all Machines.moving_executable [(None, 4096); (None, 4112)] initial_state)
  = [Readlink "/proc/4000/exe";
     Popen "addr2line 0x1000 -e /bin/db -f -C 2>&1"; Stderr EndOfLine;
     Popen "addr2line 0x1010 -e /bin/db -f -C 2>&1"; Stderr EndOfLine].
Proof. vm_compute. reflexivity. Qed.

(** * The store that removes the newline *)

Lemma lines_read_text (fuel : nat) (stream : string) :
  no_nul stream = true ->
  Forall (fun line => 1 <= strlen line <= 255 /\
                      newline_index line = strlen line - 1 /\
                      0 <= newline_index line < kLineMax)
         (lines_read fuel stream).
Proof.
  revert stream; induction fuel as [| fuel IH]; intros stream Htext; cbn [lines_read].
  - constructor.
  - destruct (fgets (Z.to_nat kLineMax) stream) as [[line rest] |] eqn:Hget; [| constructor].
    destruct (fgets_text _ _ _ Htext Hget) as [Hlen Hrest].
    constructor; [| apply IH; exact Hrest].
    rewrite (newline_index_text line Hlen). unfold kLineMax. lia.
Qed.

(** The buffers of [lines_read] are those the read loop stores into:
    the loop stops early exactly at the first buffer whose store index is
    outside the line buffer. *)
Lemma echo_lines_defined (fuel : nat) (stream : string) (s : state) :
  Forall (fun line => 0 <= newline_index line < kLineMax) (lines_read fuel stream) <->
  returns (echo_lines fuel stream s) = true.
Proof.
  revert stream; induction fuel as [| fuel IH]; intros stream;
    cbn [lines_read echo_lines].
  - split; [reflexivity | constructor].
  - destruct (fgets (Z.to_nat kLineMax) stream) as [[line rest] |];
      [| split; [reflexivity | constructor]].
    destruct ((0 <=? newline_index line) && (newline_index line <? kLineMax)) eqn:Hin.
    + run_emit. rewrite returns_after, <- IH.
      apply andb_true_iff in Hin as [Hlo Hhi].
      apply Z.leb_le in Hlo. apply Z.ltb_lt in Hhi.
      split; [intros H; inversion H; assumption | intros H; constructor; [lia | exact H]].
    + split; [| discriminate].
      intros H. inversion H as [| ? ? [Hlo Hhi] _]; subst.
      apply Z.leb_le in Hlo. apply Z.ltb_lt in Hhi. rewrite Hlo, Hhi in Hin. discriminate.
Qed.

(** C10. The store that removes the newline does not always stay inside
    the line buffer: when the launched command writes a NUL byte and a
    newline, [fgets] stores two bytes, the C string in the buffer has
    length 0, and the store goes to index [SIZE_MAX], outside the 256
    bytes of the line buffer, where no newline is. *)
Lemma newline_store_out_of_bounds :
  fgets (Z.to_nat kLineMax) Machines.nul_pipe
  = Some (String NUL (String LF (String NUL EmptyString)), EmptyString) /\
  strlen (String NUL (String LF (String NUL EmptyString))) = 0 /\
  newline_index (String NUL (String LF (String NUL EmptyString))) = 2 ^ 64 - 1 /\
  ~ (0 <= newline_index (String NUL (String LF (String NUL EmptyString))) < kLineMax) /\
  PrintStackTraceLine (Machines.with_path None (Some Machines.nul_pipe) 0) None 4660
    initial_state
  = Undefined [Readlink "/proc/4000/exe"; Popen "addr2line 0x1234 -e /bin/db -f -C 2>&1"].
Proof.
  split; [reflexivity |]. split; [reflexivity |].
  assert (H : newline_index (String NUL (String LF (String NUL EmptyString))) = 2 ^ 64 - 1)
    by reflexivity.
  split; [exact H |]. split.
  - rewrite H. unfold kLineMax. intros [_ Hhi]. revert Hhi. apply Z.le_ngt. discriminate.
  - vm_compute. reflexivity.
Qed.

(** When the launched command writes no NUL byte, every buffer the read
    loop gets from [fgets] holds a C string of 1 to 255 bytes, so the
    store at [strlen(line) - 1] is at an index from 0 to 254, inside the
    256 bytes of the line buffer, and the loop runs to the end of the
    stream. *)
Lemma newline_store_in_bounds (stream : string) :
  no_nul stream = true ->
  Forall (fun line => 1 <= strlen line <= 255 /\
                      newline_index line = strlen line - 1 /\
                      0 <= newline_index line < kLineMax)
         (lines_read (S (String.length stream)) stream) /\
  forall s, exists out, echo_lines (S (String.length stream)) stream s = Ret tt s out.
Proof.
  intros Htext. split; [apply lines_read_text; exact Htext |].
  intros s. apply total_stateless_run;
    [apply echo_lines_total; exact Htext | apply echo_lines_stateless].
Qed.

Lemma newline_store_in_bounds_witness :
  no_nul ("main" ++ EOL ++ "/src/db.cc:42" ++ EOL)%string = true /\
  Forall (fun line => 1 <= strlen line <= 255 /\
                      newline_index line = strlen line - 1 /\
                      0 <= newline_index line < kLineMax)
         (lines_read (S (String.length ("main" ++ EOL ++ "/src/db.cc:42" ++ EOL)%string))
                     ("main" ++ EOL ++ "/src/db.cc:42" ++ EOL)%string) /\
  forall s, exists out,
      echo_lines (S (String.length ("main" ++ EOL ++ "/src/db.cc:42" ++ EOL)%string))
                 ("main" ++ EOL ++ "/src/db.cc:42" ++ EOL)%string s = Ret tt s out.
Proof.
  split; [reflexivity |].
  exact (newline_store_in_bounds ("main" ++ EOL ++ "/src/db.cc:42" ++ EOL)%string eq_refl).
Defined.

Lemma fgets_chunk_bound (n : nat) (stream : string) :
  (String.length (fst (fgets_chunk n stream)) <= n)%nat.
Proof.
  revert stream; induction n as [| n IH]; intros [| c rest]; cbn [fgets_chunk fst String.length];
    try lia.
  destruct (Ascii.eqb c LF); [cbn; lia |].
  specialize (IH rest). destruct (fgets_chunk n rest) as [chunk r].
  cbn [fst String.length] in *. lia.
Qed.

Lemma c_str_terminated_length (chunk : string) :
  (String.length (c_str (chunk ++ String NUL EmptyString)) <= String.length chunk)%nat.
Proof.
  induction chunk as [| c chunk IH];
    [cbn [append c_str]; rewrite Ascii.eqb_refl; cbn [String.length]; lia |].
  cbn [append c_str]. destruct (Ascii.eqb c NUL); cbn [String.length]; lia.
Qed.

(** The C string [fgets] leaves in the buffer has at most 255 bytes, and
    none exactly when the first byte read is NUL. *)
Lemma fgets_line_length (stream line rest : string) :
  fgets (Z.to_nat kLineMax) stream = Some (line, rest) ->
  0 <= strlen line <= 255 /\
  (strlen line = 0 <-> exists later, stream = String NUL later).
Proof.
  unfold fgets. destruct stream as [| c r]; [discriminate |].
  change (Z.to_nat kLineMax - 1)%nat with 255%nat.
  destruct (fgets_chunk_head 254 c r) as [tl Hhead].
  pose proof (fgets_chunk_bound 255 (String c r)) as Hbound.
  destruct (fgets_chunk 255 (String c r)) as [chunk r']. cbn [fst] in *. subst chunk.
  intros [= <- <-]. unfold strlen.
  pose proof (c_str_terminated_length (String c tl)) as Hlen. cbn [append] in Hlen.
  split; [lia |].
  clear Hlen Hbound.
  cbn [append c_str]. destruct (Ascii.eqb_spec c NUL) as [-> | Hc].
  - split; [intros _; eexists; reflexivity | reflexivity].
  - split; [cbn [String.length]; lia | intros [later [= Heq _]]; contradiction].
Qed.

Lemma newline_index_inside (line : string) :
  0 <= strlen line <= 255 ->
  (0 <= newline_index line < kLineMax <-> strlen line <> 0).
Proof.
  intros Hlen. destruct (Z.eq_dec (strlen line) 0) as [Hzero | Hpos].
  - unfold newline_index. rewrite Hzero.
    change (size_t (0 - 1)) with (2 ^ 64 - 1). unfold kLineMax. split; [lia | contradiction].
  - rewrite newline_index_text by lia. unfold kLineMax. split; [intros _; exact Hpos | lia].
Qed.

(** X17. The newline-removing store is outside the line buffer exactly
    for the buffers that begin with a NUL byte: every buffer [fgets]
    fills holds a C string of 0 to 255 bytes, the store index is inside
    the 256 bytes exactly when that length is not 0, the read loop runs to
    the end of the stream exactly when no buffer it fills begins with NUL,
    and the first buffer does so exactly when the stream does. A NUL
    byte further inside a line only shortens what is echoed. *)
Theorem newline_store_inside_iff (fuel : nat) (stream : string) (s : state) :
  Forall (fun line => 0 <= strlen line <= 255 /\
                      (0 <= newline_index line < kLineMax <-> strlen line <> 0))
         (lines_read fuel stream) /\
  (returns (echo_lines fuel stream s) = true <->
   Forall (fun line => strlen line <> 0) (lines_read fuel stream)) /\
  (forall line rest,
      fgets (Z.to_nat kLineMax) stream = Some (line, rest) ->
      (strlen line = 0 <-> exists later, stream = String NUL later)).
Proof.
  assert (Hlines : forall fuel stream,
             Forall (fun line => 0 <= strlen line <= 255 /\
                                 (0 <= newline_index line < kLineMax <-> strlen line <> 0))
                    (lines_read fuel stream)).
  { clear. intros fuel. induction fuel as [| fuel IH]; intros stream; cbn [lines_read].
    - constructor.
    - destruct (fgets (Z.to_nat kLineMax) stream) as [[line rest] |] eqn:Hget; [| constructor].
      destruct (fgets_line_length _ _ _ Hget) as [Hlen _].
      constructor; [| apply IH].
      split; [exact Hlen | apply newline_index_inside; exact Hlen]. }
  split; [apply Hlines |]. split.
  - rewrite <- echo_lines_defined. specialize (Hlines fuel stream).
    induction Hlines as [| line ls [_ Hiff] _ IH].
    + split; constructor.
    + split; intros H; inversion H; subst; constructor; try (apply IH; assumption);
        apply Hiff; assumption.
  - intros line rest Hget. apply (fgets_line_length _ _ _ Hget).
Qed.

(** A NUL byte inside a line: the store is at index 0, inside the
    buffer, and the loop returns. *)
Example nul_inside_a_line :
  no_nul (String "a" (String NUL (String "b" (String LF EmptyString)))) = false /\
  map newline_index
      (lines_read 5 (String "a" (String NUL (String "b" (String LF EmptyString))))) = [0] /\
  echo_lines 5 (String "a" (String NUL (String "b" (String LF EmptyString)))) initial_state
  = Ret tt initial_state [Stderr (ToolLine EmptyString)].
Proof. repeat split; vm_compute; reflexivity. Qed.

Example echo_two_lines :
  events (echo_lines 20 ("main" ++ EOL ++ "/src/db.cc:42" ++ EOL)%string initial_state)
  = [Stderr (ToolLine "main"); Stderr (ToolLine "/src/db.cc:42")].
Proof. vm_compute. reflexivity. Qed.

(** A last line without a newline loses its last byte to the store. *)
Example echo_unterminated_line :
  events (echo_lines 20 "main" initial_state) = [Stderr (ToolLine "mai")].
Proof. vm_compute. reflexivity. Qed.

(** * Further properties of the code *)

(** ** Buffers of fixed size *)

Lemma string_length_app (a b : string) :
  String.length (a ++ b)%string = (String.length a + String.length b)%nat.
Proof. induction a as [| c a IH]; simpl; [reflexivity | rewrite IH; reflexivity]. Qed.

Lemma substring_prefix_length (n : nat) (s : string) :
  String.length (substring 0 n s) = Nat.min n (String.length s).
Proof.
  revert s; induction n as [| n IH]; intros [| c s]; simpl; try reflexivity.
  rewrite IH. reflexivity.
Qed.

Lemma substring_prefix_all (n : nat) (s : string) :
  (String.length s <= n)%nat -> substring 0 n s = s.
Proof.
  revert s; induction n as [| n IH]; intros [| c s]; simpl; intros H;
    try reflexivity; try lia.
  rewrite IH by lia. reflexivity.
Qed.

Lemma c_str_length (buffer : string) :
  (String.length (c_str buffer) <= String.length buffer)%nat.
Proof.
  induction buffer as [| c rest IH]; simpl; [lia |].
  destruct (Ascii.eqb c NUL); simpl; lia.
Qed.

Lemma c_str_no_nul (buffer : string) : no_nul (c_str buffer) = true.
Proof.
  induction buffer as [| c rest IH]; simpl; [reflexivity |].
  destruct (Ascii.eqb c NUL) eqn:Hc; simpl; [reflexivity |].
  rewrite Hc, IH. reflexivity.
Qed.

(** X1. [GetExecutableName] asks the operating system once per call and
    returns the null pointer exactly when [readlink] fails; a path it
    returns is a C string of at most 1023 bytes, whatever the length of
    the link's target. *)
Theorem GetExecutableName_result (W : os) (s : state) :
  let link := snprintf 1024 ("/proc/" ++ fmt_d (os_getpid W) ++ "/exe")%string in
  exists name,
    GetExecutableName W s = Ret name (count_readlink s) [Readlink link] /\
    (name = None <-> os_readlink W (readlinks s) link = None) /\
    (forall path, name = Some path ->
                  (String.length path <= 1023)%nat /\ no_nul path = true).
Proof.
  intros link. unfold GetExecutableName, bind, get, emit, modify. fold link.
  cbn [after app].
  destruct (os_readlink W (readlinks s) link) as [target |].
  - eexists. split; [reflexivity |]. split; [split; discriminate |].
    intros path [= <-]. split; [| apply c_str_no_nul].
    pose proof (c_str_length (substring 0 1023 target)) as H1.
    pose proof (substring_prefix_length 1023 target) as H2. lia.
  - eexists. split; [reflexivity |]. split; [split; reflexivity |].
    intros path; discriminate.
Qed.

(** X2. The addr2line command reaches [popen] in full exactly when the
    printed address and the executable's path together take at most 230
    bytes; a longer one is cut to the 255 bytes the command buffer holds,
    losing the end of the path and the options behind it. *)
Theorem addr2line_cmd_fits (frame : Z) (exe : string) :
  ((String.length (fmt_p frame) + String.length exe <= 230)%nat <->
   addr2line_cmd frame exe = addr2line_text frame exe) /\
  String.length (addr2line_cmd frame exe)
  = Nat.min 255 (25 + String.length (fmt_p frame) + String.length exe).
Proof.
  assert (Hlen : String.length (addr2line_text frame exe)
                 = (25 + String.length (fmt_p frame) + String.length exe)%nat).
  { unfold addr2line_text. rewrite !string_length_app. cbn [String.length]. lia. }
  assert (Hcmd : addr2line_cmd frame exe = substring 0 255 (addr2line_text frame exe))
    by reflexivity.
  split.
  - split.
    + intros Hfit. rewrite Hcmd. apply substring_prefix_all. lia.
    + intros Heq. apply (f_equal String.length) in Heq.
      rewrite Hcmd, substring_prefix_length, Hlen in Heq. lia.
  - rewrite Hcmd, substring_prefix_length, Hlen. reflexivity.
Qed.

(** ** What the read loop echoes *)

Lemma fgets_text_shape (stream line rest : string) :
  no_nul stream = true ->
  fgets (Z.to_nat kLineMax) stream = Some (line, rest) ->
  exists chunk, line = (chunk ++ String NUL EmptyString)%string /\
                no_nul chunk = true /\ chunk <> EmptyString /\
                (String.length chunk <= 255)%nat /\ no_nul rest = true.
Proof.
  intros Htext. unfold fgets. destruct stream as [| c r]; [discriminate |].
  change (Z.to_nat kLineMax - 1)%nat with 255%nat.
  pose proof (fgets_chunk_progress 254 c r) as [Hne _].
  pose proof (fgets_chunk_text 255 (String c r) Htext) as (H1 & H2 & H3).
  destruct (fgets_chunk 255 (String c r)) as [chunk r']; cbn [fst snd] in *.
  intros [= <- <-]. exists chunk. auto.
Qed.

(** Storing the terminator over the last byte of a C string leaves the
    string without that byte. *)
Lemma c_str_store_last (l tail : string) :
  no_nul l = true -> l <> EmptyString ->
  c_str (store (l ++ String NUL tail) (String.length l - 1) NUL)
  = substring 0 (String.length l - 1) l.
Proof.
  induction l as [| c l IH]; intros Htext Hne; [congruence |].
  cbn [no_nul] in Htext. apply andb_true_iff in Htext as [Hc Hl].
  apply negb_true_iff in Hc.
  destruct l as [| c' l'].
  - cbn. reflexivity.
  - replace (String.length (String c (String c' l')) - 1)%nat
      with (S (String.length (String c' l') - 1)) by (cbn [String.length]; lia).
    change ((String c (String c' l') ++ String NUL tail)%string)
      with (String c (String c' l' ++ String NUL tail)%string).
    cbn [store c_str substring]. rewrite Hc. f_equal.
    apply IH; [exact Hl | discriminate].
Qed.

(** One pass of the read loop on text. *)
Lemma echo_lines_step (fuel : nat) (stream chunk rest : string) s :
  fgets (Z.to_nat kLineMax) stream = Some ((chunk ++ String NUL EmptyString)%string, rest) ->
  no_nul chunk = true -> chunk <> EmptyString -> (String.length chunk <= 255)%nat ->
  echo_lines (S fuel) stream s
  = after [Stderr (ToolLine (substring 0 (String.length chunk - 1) chunk))]
      (echo_lines fuel rest s).
Proof.
  intros Hget Htext Hne Hlen. cbn [echo_lines]. rewrite Hget.
  assert (Hstr : strlen (chunk ++ String NUL EmptyString) = Z.of_nat (String.length chunk))
    by (unfold strlen; rewrite c_str_terminated by assumption; reflexivity).
  assert (Hpos : (1 <= String.length chunk)%nat)
    by (destruct chunk; [congruence | cbn; lia]).
  rewrite newline_index_text by (rewrite Hstr; lia). rewrite Hstr.
  replace ((0 <=? Z.of_nat (String.length chunk) - 1)
           && (Z.of_nat (String.length chunk) - 1 <? kLineMax)) with true
    by (symmetry; apply andb_true_iff; unfold kLineMax; split;
        [apply Z.leb_le | apply Z.ltb_lt]; lia).
  replace (Z.to_nat (Z.of_nat (String.length chunk) - 1))
    with (String.length chunk - 1)%nat by lia.
  rewrite c_str_store_last by assumption. run_emit. reflexivity.
Qed.

Lemma no_nul_app (a b : string) :
  no_nul (a ++ b) = no_nul a && no_nul b.
Proof.
  induction a as [| c a IH]; [reflexivity |].
  cbn [append no_nul]. rewrite IH. apply andb_assoc.
Qed.

Lemma fgets_chunk_line (l rest : string) (n : nat) :
  no_lf l = true -> (String.length l < n)%nat ->
  fgets_chunk n (l ++ String LF rest) = ((l ++ EOL)%string, rest).
Proof.
  revert n; induction l as [| c l IH]; intros [| n] Hlf Hlen;
    cbn [String.length] in Hlen; try lia.
  - reflexivity.
  - cbn [no_lf] in Hlf. apply andb_true_iff in Hlf as [Hc Hl].
    apply negb_true_iff in Hc.
    change ((String c l ++ String LF rest)%string) with (String c (l ++ String LF rest)%string).
    cbn [fgets_chunk]. rewrite Hc, (IH n Hl) by lia. reflexivity.
Qed.

Lemma fgets_chunk_rest (l : string) (n : nat) :
  no_lf l = true -> (String.length l <= n)%nat ->
  fgets_chunk n l = (l, EmptyString).
Proof.
  revert n; induction l as [| c l IH]; intros [| n] Hlf Hlen;
    cbn [String.length] in Hlen; try lia; try reflexivity.
  cbn [no_lf] in Hlf. apply andb_true_iff in Hlf as [Hc Hl].
  apply negb_true_iff in Hc.
  cbn [fgets_chunk]. rewrite Hc, (IH n Hl) by lia. reflexivity.
Qed.

Lemma substring_prefix_app (a b : string) :
  substring 0 (String.length a) (a ++ b) = a.
Proof. induction a as [| c a IH]; [destruct b; reflexivity | cbn; rewrite IH; reflexivity]. Qed.

Lemma string_app_assoc (a b c : string) :
  ((a ++ b) ++ c)%string = (a ++ (b ++ c))%string.
Proof. induction a as [| x a IH]; [reflexivity | cbn [append]; rewrite IH; reflexivity]. Qed.

(** The loop on lines that end in a newline, then on what follows. *)
Lemma echo_lines_unlines (ls : list string) (tail : string) (fuel : nat) s :
  Forall short_line ls ->
  (String.length (unlines ls ++ tail) < fuel)%nat ->
  echo_lines fuel (unlines ls ++ tail) s
  = after (map (fun l => Stderr (ToolLine l)) ls)
      (echo_lines (fuel - length ls) tail s).
Proof.
  intros Hls. revert fuel. induction Hls as [| l ls (Htext & Hlf & Hlen) _ IH]; intros fuel Hfuel.
  - cbn [unlines append map length]. rewrite Nat.sub_0_r, after_nil. reflexivity.
  - cbn [unlines] in *. destruct fuel as [| fuel]; [lia |].
    assert (Hstream : ((l ++ EOL ++ unlines ls) ++ tail)%string
                      = (l ++ String LF (unlines ls ++ tail))%string).
    { rewrite string_app_assoc. reflexivity. }
    rewrite Hstream in Hfuel |- *.
    assert (Hget : fgets (Z.to_nat kLineMax) (l ++ String LF (unlines ls ++ tail))
                   = Some (((l ++ EOL) ++ String NUL EmptyString)%string,
                           (unlines ls ++ tail)%string)).
    { unfold fgets. change (Z.to_nat kLineMax - 1)%nat with 255%nat.
      rewrite (fgets_chunk_line l _ 255 Hlf) by lia.
      destruct l; reflexivity. }
    rewrite (echo_lines_step fuel _ _ _ s Hget);
      [| rewrite no_nul_app, Htext; reflexivity
       | destruct l; discriminate
       | rewrite string_length_app; cbn; lia].
    assert (Hrest : (String.length (unlines ls ++ tail) < fuel)%nat)
      by (rewrite string_length_app in Hfuel; cbn [String.length] in Hfuel; lia).
    rewrite string_length_app. cbn [String.length EOL].
    replace (String.length l + 1 - 1)%nat with (String.length l) by lia.
    rewrite substring_prefix_app.
    rewrite (IH fuel Hrest). cbn [map length Nat.sub].
    rewrite <- after_app. reflexivity.
Qed.

Lemma echo_lines_empty (fuel : nat) s : echo_lines fuel EmptyString s = Ret tt s [].
Proof. destruct fuel; reflexivity. Qed.

Lemma string_app_empty (a : string) : (a ++ EmptyString)%string = a.
Proof. induction a as [| c a IH]; [reflexivity | cbn [append]; rewrite IH; reflexivity]. Qed.

(** A symbolization whose executable is known and whose pipe opens. *)
Lemma PrintStackTraceLine_pipe (W : os) symbol frame s path stream echoed :
  static_value W s = Some path ->
  os_popen W (addr2line_cmd frame path) = Some stream ->
  echo_lines (S (String.length stream)) stream (static_state W s)
  = Ret tt (static_state W s) echoed ->
  PrintStackTraceLine W symbol frame s
  = Ret tt (static_state W s)
      (static_events W s ++ symbol_events symbol ++
       [Popen (addr2line_cmd frame path)] ++ echoed ++ [Pclose; Stderr EndOfLine]).
Proof.
  intros Hpath Hpopen Hecho. rewrite PrintStackTraceLine_run, Hpath.
  unfold line_body, symbol_events.
  destruct symbol;
    cbv beta iota delta [bind emit ret fprintf_stderr after];
    rewrite Hpopen; cbv beta iota; rewrite Hecho;
    cbn [app]; rewrite ?app_nil_r, <- ?app_assoc; reflexivity.
Qed.

(** X3. When the executable is known and addr2line writes lines of text
    that end in a newline and are at most 254 bytes long, the symbolizer
    echoes each line without its newline, in order, between the optional
    symbol and the line end, and closes the pipe. *)
Theorem symbolizer_echoes_lines (W : os) symbol frame s path (ls : list string) :
  static_value W s = Some path ->
  os_popen W (addr2line_cmd frame path) = Some (unlines ls) ->
  Forall short_line ls ->
  PrintStackTraceLine W symbol frame s
  = Ret tt (static_state W s)
      (static_events W s ++ symbol_events symbol ++
       [Popen (addr2line_cmd frame path)] ++
       map (fun l => Stderr (ToolLine l)) ls ++ [Pclose; Stderr EndOfLine]).
Proof.
  intros Hpath Hpopen Hls.
  apply (PrintStackTraceLine_pipe W symbol frame s path (unlines ls)); try assumption.
  pose proof (echo_lines_unlines ls EmptyString (S (String.length (unlines ls)))
                (static_state W s) Hls) as Hecho.
  rewrite string_app_empty in Hecho. rewrite Hecho by lia.
  rewrite echo_lines_empty. cbn [after]. rewrite app_nil_r. reflexivity.
Qed.

Lemma symbolizer_echoes_lines_witness :
  static_value (Machines.with_path None (Some (unlines ["main"; "/src/db.cc:42"])) 0)
    initial_state = Some "/bin/db" /\
  os_popen (Machines.with_path None (Some (unlines ["main"; "/src/db.cc:42"])) 0)
    (addr2line_cmd 4660 "/bin/db") = Some (unlines ["main"; "/src/db.cc:42"]) /\
  Forall short_line ["main"; "/src/db.cc:42"] /\
  PrintStackTraceLine (Machines.with_path None (Some (unlines ["main"; "/src/db.cc:42"])) 0)
    (Some "db_main+0x10") 4660 initial_state
  = Ret tt (static_state (Machines.with_path None (Some (unlines ["main"; "/src/db.cc:42"])) 0)
              initial_state)
      (static_events (Machines.with_path None (Some (unlines ["main"; "/src/db.cc:42"])) 0)
         initial_state ++ symbol_events (Some "db_main+0x10") ++
       [Popen (addr2line_cmd 4660 "/bin/db")] ++
       map (fun l => Stderr (ToolLine l)) ["main"; "/src/db.cc:42"] ++
       [Pclose; Stderr EndOfLine]).
Proof.
  assert (Hls : Forall short_line ["main"; "/src/db.cc:42"])
    by (repeat constructor; vm_compute; lia).
  split; [reflexivity |]. split; [reflexivity |]. split; [exact Hls |].
  exact (symbolizer_echoes_lines
           (Machines.with_path None (Some (unlines ["main"; "/src/db.cc:42"])) 0)
           (Some "db_main+0x10") 4660 initial_state "/bin/db" ["main"; "/src/db.cc:42"]
           eq_refl eq_refl Hls).
Defined.

(** X4. A last line of tool output that does not end in a newline is
    echoed without its last byte: the store that removes the newline
    does not look at the byte it overwrites. *)
Theorem unterminated_line_loses_last_byte (ls : list string) (last : string) s :
  Forall short_line ls ->
  no_nul last = true -> no_lf last = true ->
  (1 <= String.length last <= 255)%nat ->
  echo_lines (S (String.length (unlines ls ++ last))) (unlines ls ++ last) s
  = Ret tt s (map (fun l => Stderr (ToolLine l)) ls ++
              [Stderr (ToolLine (substring 0 (String.length last - 1) last))]).
Proof.
  intros Hls Htext Hlf Hlen.
  rewrite (echo_lines_unlines ls last _ s Hls) by lia.
  assert (Hfuel : exists fuel, (S (String.length (unlines ls ++ last)) - length ls
                                = S (S fuel))%nat).
  { assert (Hlines : (length ls <= String.length (unlines ls))%nat).
    { clear. induction ls as [| l ls IH]; [cbn; lia |].
      cbn [unlines length]. rewrite !string_length_app. cbn [String.length EOL]. lia. }
    rewrite string_length_app.
    exists (String.length (unlines ls) + String.length last - length ls - 1)%nat. lia. }
  destruct Hfuel as [fuel ->].
  assert (Hget : fgets (Z.to_nat kLineMax) last
                 = Some ((last ++ String NUL EmptyString)%string, EmptyString)).
  { unfold fgets. change (Z.to_nat kLineMax - 1)%nat with 255%nat.
    rewrite (fgets_chunk_rest last 255 Hlf) by lia.
    destruct last; [cbn in Hlen; lia | reflexivity]. }
  rewrite (echo_lines_step (S fuel) _ _ _ s Hget Htext);
    [| destruct last; [cbn in Hlen; lia | discriminate] | lia].
  rewrite echo_lines_empty. reflexivity.
Qed.

Lemma unterminated_line_loses_last_byte_witness :
  Forall short_line ["main"] /\
  no_nul "/src/db.cc:42" = true /\ no_lf "/src/db.cc:42" = true /\
  (1 <= String.length "/src/db.cc:42" <= 255)%nat /\
  echo_lines (S (String.length (unlines ["main"] ++ "/src/db.cc:42")))
             (unlines ["main"] ++ "/src/db.cc:42") initial_state
  = Ret tt initial_state
      (map (fun l => Stderr (ToolLine l)) ["main"] ++
       [Stderr (ToolLine (substring 0 (String.length "/src/db.cc:42" - 1) "/src/db.cc:42"))]).
Proof.
  assert (Hls : Forall short_line ["main"]) by (repeat constructor; vm_compute; lia).
  assert (Hlen : (1 <= String.length "/src/db.cc:42" <= 255)%nat) by (vm_compute; lia).
  split; [exact Hls |]. split; [reflexivity |]. split; [reflexivity |]. split; [exact Hlen |].
  exact (unterminated_line_loses_last_byte ["main"] "/src/db.cc:42" initial_state
           Hls eq_refl eq_refl Hlen).
Defined.

(** ** What the built-in path does and does not do *)

Lemma keeps_bind {A B} (m : M A) (f : A -> M B) :
  keeps_dispositions m -> (forall a, keeps_dispositions (f a)) ->
  keeps_dispositions (bind m f).
Proof.
  intros Hm Hf s b s' out. unfold bind.
  destruct (m s) as [a s1 out1 | |] eqn:Hms; try discriminate.
  destruct (f a s1) as [b' s2 out2 | |] eqn:Hfs; cbn [after]; try discriminate.
  intros [= _ <- _]. rewrite (Hf a s1 b' s2 out2 Hfs). exact (Hm s a s1 out1 Hms).
Qed.

Lemma keeps_stateless {A} (m : M A) : stateless m -> keeps_dispositions m.
Proof. intros Hm s a s' out H. rewrite (Hm s a s' out H). reflexivity. Qed.

Lemma PrintStackTraceLine_keeps (W : os) symbol frame :
  keeps_dispositions (PrintStackTraceLine W symbol frame).
Proof.
  intros s a s' out. rewrite PrintStackTraceLine_run.
  destruct (line_body W (static_value W s) symbol frame (static_state W s))
    as [a1 s1 o1 | |] eqn:Hline; cbn [after]; try discriminate.
  intros [= _ <- _]. rewrite (line_body_stateless W _ _ _ _ _ _ _ Hline).
  apply static_state_disposition.
Qed.

Lemma PrintStackTraceLine_emits (W : os) symbol frame :
  emits (fun e => unwinder_event e = true) (PrintStackTraceLine W symbol frame).
Proof.
  intros s. rewrite PrintStackTraceLine_run, events_after.
  apply Forall_app; split.
  - unfold static_events. destruct (executable s); repeat constructor.
  - eapply Forall_impl; [| apply line_body_emits].
    intros [[] | | | | | | | | | | | | | | | |]; simpl; auto; contradiction.
Qed.

Lemma PrintStack_loop_emits (W : os) symbols frames (n : nat) (i : Z) :
  emits (fun e => unwinder_event e = true) (PrintStack_loop W symbols frames n i).
Proof.
  revert i; induction n as [| n IH]; intros i; cbn [PrintStack_loop].
  - apply emits_ret.
  - apply emits_bind; [apply emits_emit; reflexivity | intros _].
    destruct (frame_at frames i); [| apply emits_undefined].
    apply emits_bind; [apply PrintStackTraceLine_emits | intros _; apply IH].
Qed.

Lemma PrintStack_loop_keeps (W : os) symbols frames (n : nat) (i : Z) :
  keeps_dispositions (PrintStack_loop W symbols frames n i).
Proof.
  revert i; induction n as [| n IH]; intros i; cbn [PrintStack_loop].
  - apply keeps_stateless, stateless_ret.
  - apply keeps_bind; [apply keeps_stateless, stateless_emit | intros _].
    destruct (frame_at frames i); [| apply keeps_stateless, stateless_undefined].
    apply keeps_bind; [apply PrintStackTraceLine_keeps | intros _; apply IH].
Qed.

Lemma PrintStack_frames_emits (W : os) frames (num_frames : Z) :
  emits (fun e => unwinder_event e = true) (PrintStack_frames W frames num_frames).
Proof.
  unfold PrintStack_frames.
  apply emits_bind; [apply emits_emit; reflexivity | intros _].
  destruct (num_frames <? -1); [apply emits_undefined |].
  apply emits_bind; [apply PrintStack_loop_emits | intros _; apply emits_emit; reflexivity].
Qed.

Lemma PrintStack_frames_keeps (W : os) frames (num_frames : Z) :
  keeps_dispositions (PrintStack_frames W frames num_frames).
Proof.
  unfold PrintStack_frames.
  apply keeps_bind; [apply keeps_stateless, stateless_emit | intros _].
  destruct (num_frames <? -1); [apply keeps_stateless, stateless_undefined |].
  apply keeps_bind; [apply PrintStack_loop_keeps | intros _].
  apply keeps_stateless, stateless_emit.
Qed.

Lemma unwind_and_print_emits (W : os) (skip : Z) :
  emits (fun e => unwinder_event e = true) (unwind_and_print W skip).
Proof.
  unfold unwind_and_print.
  apply emits_bind; [apply emits_emit; reflexivity | intros _].
  destruct ((0 <=? skip) && (skip <=? kMaxFrames)); [| apply emits_undefined].
  destruct (transient_capture W skip). apply PrintStack_frames_emits.
Qed.

Lemma unwind_and_print_keeps (W : os) (skip : Z) :
  keeps_dispositions (unwind_and_print W skip).
Proof.
  unfold unwind_and_print.
  apply keeps_bind; [apply keeps_stateless, stateless_emit | intros _].
  destruct ((0 <=? skip) && (skip <=? kMaxFrames));
    [| apply keeps_stateless, stateless_undefined].
  destruct (transient_capture W skip). apply PrintStack_frames_keeps.
Qed.

Lemma unwind_and_print_starts (W : os) (skip : Z) s :
  exists rest, events (unwind_and_print W skip s) = Backtrace kMaxFrames :: rest.
Proof.
  unfold unwind_and_print. run_emit. rewrite events_after. eexists; reflexivity.
Qed.

Lemma child_events_not_unwinder (W : os) :
  Forall (fun e => e <> Backtrace kMaxFrames /\ e <> Stderr GdbFailed) (child_events W).
Proof.
  unfold child_events. destruct (debug_requested _);
    repeat constructor; discriminate.
Qed.

(** X5. [PrintStack(int)] takes a backtrace exactly when the debugger is
    not engaged, or this is the parent and the debugger child did not
    exit with success; it writes the fallback notice exactly in the
    second case. Whatever the skip, the forked child and the parent of a
    successful debugger never unwind. *)
Theorem builtin_path_taken (W : os) (cfg : build) (skip : Z) (s : state) :
  (In (Backtrace kMaxFrames) (events (PrintStack W cfg skip s)) <->
   debugger_engaged W cfg = false \/ (os_fork W <> 0 /\ child_succeeded W = false)) /\
  (In (Stderr GdbFailed) (events (PrintStack W cfg skip s)) <->
   debugger_engaged W cfg = true /\ os_fork W <> 0 /\ child_succeeded W = false).
Proof.
  destruct (unwind_and_print_starts W skip s) as [rest Hstart].
  pose proof (unwind_and_print_emits W skip s) as Hbuiltin.
  assert (Hquiet : ~ In (Stderr GdbFailed) (events (unwind_and_print W skip s))).
  { intros Hin. rewrite Forall_forall in Hbuiltin. specialize (Hbuiltin _ Hin). discriminate. }
  assert (Hrelax : forall e, In e (relax_events cfg) -> e = Prctl_SET_PTRACER_ANY).
  { unfold relax_events. destruct (PR_SET_PTRACER_ANY cfg); intros e Hin;
      [destruct Hin as [<- | []]; reflexivity | destruct Hin]. }
  destruct (debugger_engaged W cfg) eqn:Hengaged.
  - destruct (Z.eq_dec (os_fork W) 0) as [Hchild | Hparent].
    + rewrite (PrintStack_child W cfg skip s Hengaged Hchild).
      pose proof (child_events_not_unwinder W) as Hce. rewrite Forall_forall in Hce.
      assert (Hev : forall e, In e (relax_events cfg ++ Fork :: child_events W) ->
                              e <> Backtrace kMaxFrames /\ e <> Stderr GdbFailed).
      { intros e Hin. apply in_app_or in Hin as [Hin | [<- | Hin]].
        - rewrite (Hrelax e Hin). split; discriminate.
        - split; discriminate.
        - apply Hce; exact Hin. }
      split; (split;
        [intros Hin; destruct (os_execlp_succeeds W); cbn [events] in Hin;
         apply Hev in Hin; destruct Hin; congruence
        | intros H; exfalso; intuition congruence]).
    + rewrite (PrintStack_parent W cfg skip s Hengaged Hparent).
      destruct (child_succeeded W).
      * cbn [after events]. rewrite app_nil_r.
        assert (Hev : forall e, In e (relax_events cfg ++ [Fork; Waitpid (os_fork W)]) ->
                                e <> Backtrace kMaxFrames /\ e <> Stderr GdbFailed).
        { intros e Hin. apply in_app_or in Hin as [Hin | [<- | [<- | []]]].
          - rewrite (Hrelax e Hin). split; discriminate.
          - split; discriminate.
          - split; discriminate. }
        split; (split; [intros Hin; apply Hev in Hin; destruct Hin; congruence
                       | intros H; exfalso; intuition congruence]).
      * rewrite !events_after, Hstart. split; split.
        -- intros _. right. auto.
        -- intros _. apply in_or_app. right. right. left. reflexivity.
        -- intros _. auto.
        -- intros _. apply in_or_app. right. left. reflexivity.
  - rewrite (PrintStack_builtin W cfg skip Hengaged). split; split.
    + intros _. left. reflexivity.
    + intros _. rewrite Hstart. left. reflexivity.
    + intros Hin. contradiction.
    + intros (H & _). discriminate.
Qed.

Lemma SaveStack_stateless (W : os) (skip : Z) : stateless (SaveStack W skip).
Proof.
  unfold SaveStack.
  apply stateless_bind; [apply stateless_emit | intros _].
  destruct (negb (in_int (SaveStack_num_frames W skip))); [apply stateless_undefined |].
  apply stateless_bind; [apply stateless_emit | intros _].
  destruct (_ =? 0); [apply stateless_ret |].
  destruct (_ && _); [| apply stateless_undefined].
  destruct (frames_from _ _ _); [apply stateless_ret | apply stateless_undefined].
Qed.

Lemma SaveStack_emits (W : os) (skip : Z) :
  emits (fun e => signal_event e = false) (SaveStack W skip).
Proof.
  unfold SaveStack.
  apply emits_bind; [apply emits_emit; reflexivity | intros _].
  destruct (negb (in_int (SaveStack_num_frames W skip))); [apply emits_undefined |].
  apply emits_bind; [apply emits_emit; reflexivity | intros _].
  destruct (_ =? 0); [apply emits_ret |].
  destruct (_ && _); [| apply emits_undefined].
  destruct (frames_from _ _ _); [apply emits_ret | apply emits_undefined].
Qed.

Lemma unwinder_event_no_signal (e : event) :
  unwinder_event e = true -> signal_event e = false.
Proof. destruct e as [[] | | | | | | | | | | | | | | | |]; simpl; congruence. Qed.

Lemma PrintStack_emits_no_signal (W : os) (cfg : build) (skip : Z) :
  emits (fun e => signal_event e = false) (PrintStack W cfg skip).
Proof.
  intros s.
  pose proof (emits_weaken _ _ _ unwinder_event_no_signal (unwind_and_print_emits W skip) s)
    as Hbuiltin.
  assert (Hrelax : Forall (fun e => signal_event e = false) (relax_events cfg))
    by (unfold relax_events; destruct (PR_SET_PTRACER_ANY cfg); repeat constructor).
  destruct (debugger_engaged W cfg) eqn:Hengaged.
  - destruct (Z.eq_dec (os_fork W) 0) as [Hchild | Hparent].
    + rewrite (PrintStack_child W cfg skip s Hengaged Hchild).
      assert (Hev : Forall (fun e => signal_event e = false)
                           (relax_events cfg ++ Fork :: child_events W)).
      { apply Forall_app; split; [exact Hrelax |].
        unfold child_events. destruct (debug_requested _); repeat constructor. }
      destruct (os_execlp_succeeds W); exact Hev.
    + rewrite (PrintStack_parent W cfg skip s Hengaged Hparent).
      destruct (child_succeeded W); rewrite !events_after;
        repeat (apply Forall_app; split); try exact Hrelax; try exact Hbuiltin;
        repeat constructor.
  - rewrite (PrintStack_builtin W cfg skip Hengaged). exact Hbuiltin.
Qed.

Lemma PrintStack_keeps (W : os) (cfg : build) (skip : Z) :
  keeps_dispositions (PrintStack W cfg skip).
Proof.
  intros s a s' out.
  destruct (debugger_engaged W cfg) eqn:Hengaged.
  - destruct (Z.eq_dec (os_fork W) 0) as [Hchild | Hparent].
    + rewrite (PrintStack_child W cfg skip s Hengaged Hchild).
      destruct (os_execlp_succeeds W); [discriminate |].
      intros [= _ <- _]. reflexivity.
    + rewrite (PrintStack_parent W cfg skip s Hengaged Hparent).
      destruct (child_succeeded W).
      * cbn [after]. intros [= _ <- _]. reflexivity.
      * rewrite <- after_app.
        destruct (unwind_and_print W skip s) as [a1 s1 o1 | |] eqn:Hrun;
          cbn [after]; try discriminate.
        intros [= _ <- _]. exact (unwind_and_print_keeps W skip s a1 s1 o1 Hrun).
  - rewrite (PrintStack_builtin W cfg skip Hengaged). apply unwind_and_print_keeps.
Qed.

(** X6. Printing and saving stacks never touch the signals: no run of
    [PrintStack(int)], or of [SaveStack] followed by [PrintAndFreeStack],
    calls [signal] or [raise], and when they return every signal has the
    disposition it had before. *)
Theorem printing_leaves_signals_alone (W : os) (cfg : build) (skip : Z) :
  emits (fun e => signal_event e = false) (PrintStack W cfg skip) /\
  keeps_dispositions (PrintStack W cfg skip) /\
  emits (fun e => signal_event e = false) (save_then_print W skip) /\
  keeps_dispositions (save_then_print W skip).
Proof.
  split; [apply PrintStack_emits_no_signal |]. split; [apply PrintStack_keeps |].
  unfold save_then_print, PrintAndFreeStack. split.
  - apply emits_bind; [apply SaveStack_emits | intros saved].
    apply emits_bind; [| intros _; apply emits_emit; reflexivity].
    apply (emits_weaken _ _ _ unwinder_event_no_signal), PrintStack_frames_emits.
  - apply keeps_bind; [apply keeps_stateless, SaveStack_stateless | intros saved].
    apply keeps_bind; [apply PrintStack_frames_keeps | intros _].
    apply keeps_stateless, stateless_emit.
Qed.

(** ** When saving is defined *)

Lemma size_of_negative_count (n : Z) :
  INT_MIN <= n < 0 -> size_t (sizeof_ptr * size_t n) = sizeof_ptr * n + SIZE_MOD.
Proof.
  unfold INT_MIN, size_t, SIZE_MOD, sizeof_ptr. intros Hn.
  assert (H1 : n mod 2 ^ 64 = n + 2 ^ 64)
    by (symmetry; apply (Z.mod_unique_pos n (2 ^ 64) (-1)); lia).
  rewrite H1. symmetry. apply (Z.mod_unique_pos _ (2 ^ 64) 7); lia.
Qed.

Lemma size_of_count (n : Z) :
  0 <= n <= INT_MAX -> size_t (sizeof_ptr * size_t n) = sizeof_ptr * n.
Proof.
  unfold INT_MAX, size_t, SIZE_MOD, sizeof_ptr. intros Hn.
  rewrite (Z.mod_small n) by lia. apply Z.mod_small. lia.
Qed.

Lemma frames_from_before_array (l : list Z) (off : Z) (n : nat) :
  off < 0 -> frames_from {| base := l; offset := off |} (S n) 0 = None.
Proof.
  intros Hoff. cbn [frames_from]. unfold frame_at. cbn [base offset].
  replace (0 <=? off + 0) with false by (symmetry; apply Z.leb_gt; lia). reflexivity.
Qed.

(** X7. [SaveStack] returns exactly when the skip lies between 0 and the
    number of frames the unwinder stored and, unless nothing is left to
    copy, the allocation succeeds. A negative skip reads in front of the
    array, and a skip beyond the stored frames asks [malloc] for a size
    that wrapped around and copies through the null pointer. *)
Theorem SaveStack_returns_iff (W : os) (skip : Z) (s : state) :
  let count := Z.of_nat (length (backtrace W By_SaveStack kMaxFrames)) in
  returns (SaveStack W skip s) = true <->
  0 <= skip <= count /\
  (skip = count \/ os_malloc_succeeds W (sizeof_ptr * (count - skip)) = true).
Proof.
  intros count. pose proof (proj1 (backtrace_length W By_SaveStack)) as Hlen.
  fold count in Hlen.
  unfold kMaxFrames in Hlen.
  unfold SaveStack, SaveStack_num_frames. fold count. run_emit. rewrite returns_after.
  set (n := count - skip).
  destruct (in_int n) eqn:Hint; cbn [negb].
  - unfold in_int in Hint. apply andb_true_iff in Hint as [Hlo Hhi].
    apply Z.leb_le in Hlo. apply Z.leb_le in Hhi.
    run_emit. rewrite returns_after.
    destruct (Z.lt_trichotomy n 0) as [Hneg | [Hzero | Hpos]].
    + (* the skip is beyond the stored frames *)
      rewrite (size_of_negative_count n) by lia.
      replace (sizeof_ptr * n + SIZE_MOD =? 0) with false
        by (symmetry; apply Z.eqb_neq; unfold sizeof_ptr, SIZE_MOD, INT_MIN in *; lia).
      replace (sizeof_ptr * n + SIZE_MOD <=? PTRDIFF_MAX) with false
        by (symmetry; apply Z.leb_gt;
            unfold sizeof_ptr, SIZE_MOD, PTRDIFF_MAX, INT_MIN in *; lia).
      cbn [andb undefined returns]. split; [discriminate | intros [H _]; subst n; lia].
    + (* nothing is left to copy *)
      rewrite (size_of_count n) by (unfold INT_MAX; lia). rewrite Hzero.
      cbn. split; [intros _; subst n; split; [lia | left; lia] | reflexivity].
    + rewrite (size_of_count n) by lia.
      replace (sizeof_ptr * n =? 0) with false
        by (symmetry; apply Z.eqb_neq; unfold sizeof_ptr; lia).
      replace (sizeof_ptr * n <=? PTRDIFF_MAX) with true
        by (symmetry; apply Z.leb_le; unfold sizeof_ptr, PTRDIFF_MAX, INT_MAX in *; lia).
      cbn [andb].
      replace (sizeof_ptr * n / sizeof_ptr) with n
        by (unfold sizeof_ptr; rewrite Z.mul_comm, Z.div_mul; lia).
      destruct (os_malloc_succeeds W (sizeof_ptr * n)) eqn:Hmalloc;
        [| split; [discriminate | intros [_ [H | H]]; [subst n; lia | discriminate]]].
      destruct (Z.lt_ge_cases skip 0) as [Hfront | Hinside].
      * (* the skip is negative *)
        destruct (Z.to_nat n) as [| k] eqn:Hk; [lia |].
        rewrite frames_from_before_array by assumption.
        split; [discriminate | intros [H _]; lia].
      * rewrite frames_from_inside by (subst n; lia).
        cbn. split; [intros _; subst n; split; [lia | right; reflexivity] | reflexivity].
  - unfold in_int in Hint. apply andb_false_iff in Hint.
    split; [discriminate |]. intros [H _].
    destruct Hint as [Hint | Hint]; [apply Z.leb_gt in Hint | apply Z.leb_gt in Hint];
      unfold INT_MIN, INT_MAX in Hint; subst n; lia.
Qed.

(** ** What the printing loop writes for the frames it is given *)






Lemma tool_line_projections (out : list event) :
  Forall tool_line out ->
  raw_addresses out = [] /\ launched out = [] /\ symbols_written out = [].
Proof.
  unfold raw_addresses, launched, symbols_written.
  induction 1 as [| e out He _ (IH1 & IH2 & IH3)]; [repeat split; reflexivity |].
  destruct e as [[] | | | | | | | | | | | | | | | |]; simpl in He; try contradiction.
  cbn [flat_map app]. auto.
Qed.







Example skip_far_beyond_capture :
  PrintStack Machines.two_deep Machines.static_build 4 initial_state
  = Undefined [Backtrace kMaxFrames; BacktraceSymbols (-2)].
Proof. reflexivity. Qed.









Example symbols_and_addresses :
  stderr_text (events (PrintStack Machines.with_symbols Machines.static_build 1 initial_state))
  = ("#0   db(main+0x20)  0x1010" ++ EOL ++ "#1   db(main+0x20)  0x1020" ++ EOL)%string.
Proof. vm_compute. reflexivity. Qed.

(** ** The symbolizer under OS_MACOSX *)

Lemma static_pid_run (W : os) (s : state) :
  static_pid W s
  = Ret (match macosx_pid s with Some pid => pid | None => os_getpid W end)
        (match macosx_pid s with Some _ => s | None => set_macosx_pid (os_getpid W) s end)
        [].
Proof. unfold static_pid, bind, get. destruct (macosx_pid s); reflexivity. Qed.

(** What follows the initialisation of the static, for the process
    number [pid] it holds. *)
Lemma atos_line_stateless (W : os) (pid : Z) symbol frame :
  stateless (emit (Popen (atos_cmd pid frame)) ;;
             match os_popen W (atos_cmd pid frame) with
             | Some stream => echo_lines (S (String.length stream)) stream ;; emit Pclose
             | None => match symbol with
                       | Some sym => fprintf_stderr (Symbol sym)
                       | None => ret tt
                       end
             end ;;
             fprintf_stderr EndOfLine)%prog.
Proof.
  unfold fprintf_stderr.
  apply stateless_bind; [apply stateless_emit | intros _].
  apply stateless_bind; [| intros _; apply stateless_emit].
  destruct (os_popen W (atos_cmd pid frame)) as [stream |].
  - apply stateless_bind; [apply echo_lines_stateless | intros _; apply stateless_emit].
  - destruct symbol; [apply stateless_emit | apply stateless_ret].
Qed.

Lemma PrintStackTraceLine_macosx_events (W : os) symbol frame s :
  let pid := match macosx_pid s with Some pid => pid | None => os_getpid W end in
  exists echoed closing,
    Forall tool_line echoed /\
    (closing = [] \/ closing = [Pclose; Stderr EndOfLine]) /\
    events (PrintStackTraceLine_macosx W symbol frame s)
    = Popen (atos_cmd pid frame) ::
      match os_popen W (atos_cmd pid frame) with
      | Some _ => echoed ++ closing
      | None => symbol_events symbol ++ [Stderr EndOfLine]
      end.
Proof.
  intros pid. unfold PrintStackTraceLine_macosx, symbol_events.
  rewrite (bind_ret _ _ _ _ _ _ (static_pid_run W s)). fold pid.
  set (s0 := match macosx_pid s with Some _ => s | None => set_macosx_pid (os_getpid W) s end).
  cbv beta iota zeta delta [bind emit ret fprintf_stderr after].
  destruct (os_popen W (atos_cmd pid frame)) as [stream |].
  - pose proof (echo_lines_emits (S (String.length stream)) stream s0) as Hecho.
    destruct (echo_lines (S (String.length stream)) stream s0) as [[] s1 o | o | o];
      cbn [events] in Hecho.
    + exists o, [Pclose; Stderr EndOfLine]. split; [exact Hecho |]. split; [auto |].
      cbn [events app]. rewrite <- app_assoc. reflexivity.
    + exists o, []. split; [exact Hecho |]. split; [auto |].
      cbn [events app]. rewrite app_nil_r. reflexivity.
    + exists o, []. split; [exact Hecho |]. split; [auto |].
      cbn [events app]. rewrite app_nil_r. reflexivity.
  - exists [], []. split; [constructor |]. split; [auto |].
    destruct symbol; reflexivity.
Qed.

(** X12. Under OS_MACOSX the symbolizer launches one atos command per
    frame, for the process number held in its static: the one [getpid]
    gave on the first call, whatever it would give by now. It writes the
    compiled-in symbol only as the fallback, when the pipe cannot be
    opened; it never writes a raw address and never looks up the
    executable. On return the static holds that process number and the
    rest of the state is as before, so a later call, also in a process
    with another number, names the same one. *)
Theorem macosx_symbol_is_the_fallback (W : os) (symbol : option string) (frame : Z)
    (s : state) :
  let pid := match macosx_pid s with Some cached => cached | None => os_getpid W end in
  launched (events (PrintStackTraceLine_macosx W symbol frame s)) = [atos_cmd pid frame] /\
  symbols_written (events (PrintStackTraceLine_macosx W symbol frame s))
  = match os_popen W (atos_cmd pid frame), symbol with
    | None, Some sym => [sym]
    | _, _ => []
    end /\
  raw_addresses (events (PrintStackTraceLine_macosx W symbol frame s)) = [] /\
  readlink_events (events (PrintStackTraceLine_macosx W symbol frame s)) = [] /\
  forall a s' out,
    PrintStackTraceLine_macosx W symbol frame s = Ret a s' out ->
    s' = match macosx_pid s with Some _ => s | None => set_macosx_pid pid s end /\
    macosx_pid s' = Some pid /\
    forall (W' : os) symbol' frame',
      launched (events (PrintStackTraceLine_macosx W' symbol' frame' s'))
      = [atos_cmd pid frame'].
Proof.
  intros pid.
  assert (Hlaunched : forall (V : os) sym f st,
             launched (events (PrintStackTraceLine_macosx V sym f st))
             = [atos_cmd (match macosx_pid st with
                          | Some cached => cached
                          | None => os_getpid V
                          end) f]).
  { intros V sym f st.
    destruct (PrintStackTraceLine_macosx_events V sym f st)
      as (echoed & closing & Hecho & Hclosing & ->).
    destruct (tool_line_projections echoed Hecho) as (_ & Hl & _).
    unfold launched in *. cbn [flat_map].
    destruct (os_popen V _).
    - rewrite flat_map_app, Hl. destruct Hclosing as [-> | ->]; reflexivity.
    - unfold symbol_events. destruct sym; reflexivity. }
  split; [apply Hlaunched |].
  destruct (PrintStackTraceLine_macosx_events W symbol frame s)
    as (echoed & closing & Hecho & Hclosing & Hevents).
  fold pid in Hevents. rewrite Hevents.
  destruct (tool_line_projections echoed Hecho) as (Hr & _ & Hs).
  pose proof (proj2 (line_event_no_index echoed (tool_line_is_line_event echoed Hecho))) as Hq.
  unfold symbols_written, raw_addresses, readlink_events in *.
  split; [| split; [| split]].
  - destruct (os_popen W (atos_cmd pid frame)) as [stream |].
    + cbn [flat_map]. rewrite flat_map_app, Hs. destruct Hclosing as [-> | ->]; reflexivity.
    + unfold symbol_events. destruct symbol; reflexivity.
  - destruct (os_popen W (atos_cmd pid frame)) as [stream |].
    + cbn [flat_map]. rewrite flat_map_app, Hr. destruct Hclosing as [-> | ->]; reflexivity.
    + unfold symbol_events. destruct symbol; reflexivity.
  - destruct (os_popen W (atos_cmd pid frame)) as [stream |].
    + cbn [filter]. rewrite filter_app, Hq. destruct Hclosing as [-> | ->]; reflexivity.
    + unfold symbol_events. destruct symbol; reflexivity.
  - intros a s' out Hrun.
    assert (Hstate : s' = match macosx_pid s with
                          | Some _ => s
                          | None => set_macosx_pid pid s
                          end).
    { unfold PrintStackTraceLine_macosx in Hrun.
      rewrite (bind_ret _ _ _ _ _ _ (static_pid_run W s)) in Hrun.
      rewrite after_nil in Hrun. fold pid in Hrun.
      rewrite (atos_line_stateless W _ symbol frame _ a s' out Hrun).
      subst pid. destruct (macosx_pid s); reflexivity. }
    assert (Hpid : macosx_pid s' = Some pid)
      by (rewrite Hstate; subst pid; destruct (macosx_pid s) eqn:Hcached;
          [exact Hcached | reflexivity]).
    split; [exact Hstate |]. split; [exact Hpid |].
    intros W' symbol' frame'. rewrite Hlaunched, Hpid. reflexivity.
Qed.

Example macosx_pid_outlives_fork :
  os_getpid Machines.five_deep = 4000 /\ os_getpid Machines.forked_copy = 4242 /\
  PrintStackTraceLine_macosx Machines.five_deep None 4128 initial_state
  = Ret tt (set_macosx_pid 4000 initial_state) [Popen (atos_cmd 4000 4128); Stderr EndOfLine] /\
  launched (events (bind (PrintStackTraceLine_macosx Machines.five_deep None 4128)
                         (fun _ => PrintStackTraceLine_macosx Machines.forked_copy None 4144)
                         initial_state))
  = [atos_cmd 4000 4128; atos_cmd 4000 4144] /\
  launched (events (PrintStackTraceLine_macosx Machines.forked_copy None 4144 initial_state))
  = [atos_cmd 4242 4144].
Proof. repeat split; vm_compute; reflexivity. Qed.

(** ** Installing, handling, installing again *)

Lemma InstallStackTraceHandler_run (W : os) (cfg : build) (s : state) :
  InstallStackTraceHandler W cfg s
  = Ret tt (installed W s)
      ([Signal SIGILL To_StackTraceHandler; Signal SIGSEGV To_StackTraceHandler;
        Signal SIGBUS To_StackTraceHandler; Signal SIGABRT To_StackTraceHandler]
       ++ relax_events cfg).
Proof.
  unfold InstallStackTraceHandler.
  rewrite (bind_ret _ _ _ _ _ _ (signal_run W SIGILL To_StackTraceHandler s)).
  rewrite (bind_ret _ _ _ _ _ _ (signal_run W SIGSEGV To_StackTraceHandler _)).
  rewrite (bind_ret _ _ _ _ _ _ (signal_run W SIGBUS To_StackTraceHandler _)).
  rewrite (bind_ret _ _ _ _ _ _ (signal_run W SIGABRT To_StackTraceHandler _)).
  rewrite relax_ptrace_run. reflexivity.
Qed.

Lemma installed_disposition (W : os) (s : state) (sig : Z) :
  disposition (installed W s) sig
  = if existsb (Z.eqb sig) handled_signals && os_signal_succeeds W sig
    then To_StackTraceHandler else disposition s sig.
Proof.
  unfold installed. rewrite !disposition_after_signal.
  unfold handled_signals. cbn [existsb].
  destruct (Z.eqb_spec sig SIGABRT) as [-> | _];
    [destruct (os_signal_succeeds W SIGABRT); reflexivity |].
  destruct (Z.eqb_spec sig SIGBUS) as [-> | _];
    [destruct (os_signal_succeeds W SIGBUS); reflexivity |].
  destruct (Z.eqb_spec sig SIGSEGV) as [-> | _];
    [destruct (os_signal_succeeds W SIGSEGV); reflexivity |].
  destruct (Z.eqb_spec sig SIGILL) as [-> | _];
    [destruct (os_signal_succeeds W SIGILL); reflexivity |].
  reflexivity.
Qed.

Lemma installed_statics (W : os) (s : state) :
  executable (installed W s) = executable s /\ readlinks (installed W s) = readlinks s.
Proof.
  unfold installed.
  destruct (os_signal_succeeds W SIGILL), (os_signal_succeeds W SIGSEGV),
    (os_signal_succeeds W SIGBUS), (os_signal_succeeds W SIGABRT); split; reflexivity.
Qed.

(** X13. Installing twice is installing once: the second call issues
    the same registrations again and leaves every signal's disposition,
    and the other statics, as the first call left them. *)
Theorem install_twice (W : os) (cfg : build) (s : state) :
  exists s1 s2 out,
    InstallStackTraceHandler W cfg s = Ret tt s1 out /\
    InstallStackTraceHandler W cfg s1 = Ret tt s2 out /\
    (forall sig, disposition s2 sig = disposition s1 sig) /\
    executable s2 = executable s /\ readlinks s2 = readlinks s.
Proof.
  exists (installed W s), (installed W (installed W s)). eexists.
  split; [apply InstallStackTraceHandler_run |].
  split; [apply InstallStackTraceHandler_run |]. split.
  - intros sig. rewrite (installed_disposition W (installed W s)).
    rewrite (installed_disposition W s).
    destruct (existsb (Z.eqb sig) handled_signals && os_signal_succeeds W sig); reflexivity.
  - destruct (installed_statics W (installed W s)) as [-> ->]. apply installed_statics.
Qed.




(** X15. In the child forked for the debugger the handler never unwinds
    and never waits. If the debugger is executed, the handler's run ends
    there, without a re-raise; if it cannot be executed, [PrintStack]
    returns and the child itself raises the signal again, at its default
    disposition when the reset succeeded. *)
Theorem handler_in_debugger_child (W : os) (cfg : build) (sig : Z) (s : state) :
  debugger_engaged W cfg = true ->
  os_fork W = 0 ->
  let reset := if os_signal_succeeds W sig then set_disposition sig SIG_DFL s else s in
  let before := [Signal sig SIG_DFL; Stderr (ReceivedSignal sig (os_strsignal W sig))]
                ++ relax_events cfg ++ Fork :: child_events W in
  StackTraceHandler W cfg sig s
  = if os_execlp_succeeds W then Replaced before
    else Ret tt reset (before ++ tsan_events cfg ++ [Raise sig]).
Proof.
  intros Hengaged Hchild reset before. unfold StackTraceHandler.
  rewrite (bind_ret _ _ _ _ _ _ (signal_run W sig SIG_DFL s)). fold reset.
  run_emit. unfold bind at 1.
  rewrite (PrintStack_child W cfg 3 reset Hengaged Hchild).
  subst before. unfold tsan_events, raise.
  destruct (os_execlp_succeeds W); cbn [after]; [reflexivity |].
  destruct (SANITIZE_THREAD cfg);
    cbv beta iota delta [bind ret emit fprintf_stderr after];
    cbn [app]; rewrite <- ?app_assoc; cbn [app]; reflexivity.
Qed.

Lemma handler_in_debugger_child_witness :
  debugger_engaged Machines.debug_child Machines.static_build = true /\
  os_fork Machines.debug_child = 0 /\
  StackTraceHandler Machines.debug_child Machines.static_build SIGSEGV initial_state
  = Ret tt (set_disposition SIGSEGV SIG_DFL initial_state)
      (([Signal SIGSEGV SIG_DFL; Stderr (ReceivedSignal SIGSEGV "Aborted")]
        ++ relax_events Machines.static_build ++ Fork :: child_events Machines.debug_child)
       ++ tsan_events Machines.static_build ++ [Raise SIGSEGV]).
Proof.
  split; [reflexivity |]. split; [reflexivity |].
  exact (handler_in_debugger_child Machines.debug_child Machines.static_build SIGSEGV
           initial_state eq_refl eq_refl).
Defined.

(** ** Lines longer than the line buffer *)

Lemma fgets_chunk_full (l rest : string) (n : nat) :
  no_lf l = true -> String.length l = n ->
  fgets_chunk n (l ++ rest) = (l, rest).
Proof.
  revert n; induction l as [| c l IH]; intros n Hlf Hlen; cbn [String.length] in Hlen;
    subst n; [reflexivity |].
  cbn [no_lf] in Hlf. apply andb_true_iff in Hlf as [Hc Hl].
  apply negb_true_iff in Hc.
  change ((String c l ++ rest)%string) with (String c (l ++ rest)%string).
  cbn [fgets_chunk]. rewrite Hc, (IH _ Hl eq_refl). reflexivity.
Qed.

(** X16. A line of tool output that has no newline within its first 255
    bytes is read in pieces: the first piece is those 255 bytes, of which
    the last is overwritten, so 254 are echoed and the loop goes on with
    the 256th byte. *)
Theorem long_line_is_cut (l rest : string) (fuel : nat) (s : state) :
  no_nul l = true -> no_lf l = true -> String.length l = 255%nat ->
  echo_lines (S fuel) (l ++ rest) s
  = after [Stderr (ToolLine (substring 0 254 l))] (echo_lines fuel rest s).
Proof.
  intros Htext Hlf Hlen.
  assert (Hget : fgets (Z.to_nat kLineMax) (l ++ rest)
                 = Some ((l ++ String NUL EmptyString)%string, rest)).
  { unfold fgets. change (Z.to_nat kLineMax - 1)%nat with 255%nat.
    rewrite (fgets_chunk_full l rest 255 Hlf Hlen).
    destruct l; [discriminate | reflexivity]. }
  rewrite (echo_lines_step fuel _ _ _ s Hget Htext);
    [| destruct l; discriminate | lia].
  rewrite Hlen. reflexivity.
Qed.

Lemma long_line_is_cut_witness :
  no_nul Machines.long_line = true /\ no_lf Machines.long_line = true /\
  String.length Machines.long_line = 255%nat /\
  echo_lines 3 (Machines.long_line ++ "bc" ++ EOL) initial_state
  = after [Stderr (ToolLine (substring 0 254 Machines.long_line))]
      (echo_lines 2 ("bc" ++ EOL) initial_state).
Proof.
  split; [vm_compute; reflexivity |]. split; [vm_compute; reflexivity |].
  split; [vm_compute; reflexivity |].
  exact (long_line_is_cut Machines.long_line ("bc" ++ EOL) 2 initial_state
           eq_refl eq_refl eq_refl).
Defined.

(** ** The first line of the handler *)

Lemma stderr_text_app (out1 out2 : list event) :
  stderr_text (out1 ++ out2) = (stderr_text out1 ++ stderr_text out2)%string.
Proof.
  induction out1 as [| e out1 IH]; [reflexivity |].
  destruct e as [t | | | | | | | | | | | | | | | |]; cbn [app stderr_text]; try exact IH.
  rewrite IH, string_app_assoc. reflexivity.
Qed.

(** Whatever happens later in the handler, the first thing on the
    error stream is the line "Received signal <number> (<description>)",
    written after the disposition was reset. *)
Lemma handler_first_line (W : os) (cfg : build) (sig : Z) (s : state) :
  exists later,
    events (StackTraceHandler W cfg sig s)
    = Signal sig SIG_DFL :: Stderr (ReceivedSignal sig (os_strsignal W sig)) :: later /\
    stderr_text (events (StackTraceHandler W cfg sig s))
    = ("Received signal " ++ fmt_d sig ++ " (" ++ os_strsignal W sig ++ ")" ++ EOL
       ++ stderr_text later)%string.
Proof.
  pose proof (StackTraceHandler_events W cfg sig s) as Hev. cbv zeta in Hev.
  eexists. split; [rewrite Hev; reflexivity |].
  rewrite Hev. cbn [app stderr_text render].
  rewrite !string_app_assoc. reflexivity.
Qed.
